(** * lambda_function.py: the project-creation handler

    A shallow embedding of [src/lambda_function.py] and the properties its
    specification states about it.

    Python values are the JSON-shaped values the handler can receive: the
    event of a direct invocation is decoded JSON, and the body of a gateway
    event is decoded by [json.loads].  A [dict] with string keys is a
    [gmap string pyval]; a Python [int] is a [Z] (unbounded, no wrap-around);
    a Python [float] is a binary64 [float].  Exceptions are values of [exn],
    carried by the error monad [res]; code that talks to the table or prints
    runs in the state-and-exception monad [M]. *)

From Stdlib Require Import ZArith String Ascii List Lia.
From Stdlib Require Import Floats Numbers.Cyclic.Int63.Uint63.
From stdpp Require Import base option gmap strings list fin_maps.

#[local] Set Warnings "-register-all".

Local Open Scope string_scope.
Local Open Scope Z_scope.

(** ** Python values *)

Inductive pyval : Type :=
| PNone
| PBool (b : bool)
| PInt (n : Z)
| PFloat (f : float)
| PStr (s : string)
| PList (l : list pyval)
| PDict (d : gmap string pyval).

(** [type(v).__name__], as it appears in error messages. *)
Definition type_name (v : pyval) : string :=
  match v with
  | PNone => "NoneType"
  | PBool _ => "bool"
  | PInt _ => "int"
  | PFloat _ => "float"
  | PStr _ => "str"
  | PList _ => "list"
  | PDict _ => "dict"
  end.

(** The float equal to a small integer constant of the source (every
    constant the source compares with is below 2^53, so the conversion is
    exact). *)
Definition float_of_Z (n : Z) : float := PrimFloat.of_uint63 (Uint63.of_Z n).

(** [bool(v)]: the truth value Python gives [v] in [if v], [not v], [all]
    and [any]. *)
Definition truthy (v : pyval) : bool :=
  match v with
  | PNone => false
  | PBool b => b
  | PInt n => negb (n =? 0)
  | PFloat f => negb (PrimFloat.eqb f (float_of_Z 0))
  | PStr s => negb (String.eqb s "")
  | PList l => match l with [] => false | _ :: _ => true end
  | PDict d => negb (Nat.eqb (size d) 0)
  end.

(** ** Exceptions and the error monad *)

Inductive exn : Type :=
| TypeError (msg : string)
| AttributeError (msg : string)
| JSONDecodeError (msg : string)
| OtherError (msg : string).

(** [str(e)] *)
Definition exn_str (e : exn) : string :=
  match e with
  | TypeError m | AttributeError m | JSONDecodeError m | OtherError m => m
  end.

Definition res (A : Type) : Type := exn + A.

(** Sequencing shared by the two monads of the model; in [x <- m ;; k] the
    computation [m] runs first and the first exception raised ends the
    whole. *)
Class Monad (F : Type → Type) : Type := {
  ret : ∀ {A}, A → F A;
  bind : ∀ {A B}, F A → (A → F B) → F B
}.

Notation "x <- m ;; k" := (bind m (λ x, k))
  (at level 100, m at next level, right associativity,
   format "'[v' x  <-  m  ;;  '/' k ']'").
Notation "m ;;; k" := (bind m (λ _, k))
  (at level 100, right associativity).

#[global] Instance res_monad : Monad res := {|
  ret := λ A a, inr a;
  bind := λ A B m k, match m with inl e => inl e | inr a => k a end
|}.

Definition raise {A} (e : exn) : res A := inl e.

(** ** Operators of the source on values *)

(** [v.get(key, dflt)]: defined on a dict, an [AttributeError] on every
    other JSON-shaped value. *)
Definition py_get (v : pyval) (key : string) (dflt : pyval) : res pyval :=
  match v with
  | PDict d => ret (default dflt (d !! key))
  | _ => raise (AttributeError
                  ("'" +:+ type_name v +:+ "' object has no attribute 'get'"))
  end.

(** [v == n] for an integer constant [n]: never raises; a bool is the
    integer 0 or 1, a float compares by value, any other value differs. *)
Definition py_eq_int (v : pyval) (n : Z) : bool :=
  match v with
  | PInt a => a =? n
  | PBool b => Z.b2z b =? n
  | PFloat f => PrimFloat.eqb f (float_of_Z n)
  | _ => false
  end.

(** [v > n] for an integer constant [n]: defined on numbers, a [TypeError]
    on the rest. *)
Definition py_gt_int (v : pyval) (n : Z) : res bool :=
  match v with
  | PInt a => ret (n <? a)
  | PBool b => ret (n <? Z.b2z b)
  | PFloat f => ret (PrimFloat.ltb (float_of_Z n) f)
  | _ => raise (TypeError
                  ("'>' not supported between instances of '"
                     +:+ type_name v +:+ "' and 'int'"))
  end.

(** [any(f(x) for x in l)]: the generator is consumed up to the first truthy
    element, and an exception raised on the way propagates. *)
Fixpoint py_any {A} (f : A → res pyval) (l : list A) : res bool :=
  match l with
  | [] => ret false
  | x :: l' => v <- f x ;; if truthy v then ret true else py_any f l'
  end.

(** ** calculate_health_score *)

Definition calculate_health_score (scraped_data : pyval) : res Z :=
  (let score := 0 in
   status_code <- py_get scraped_data "status_code" (PInt 0) ;;
   let score := if py_eq_int status_code 200 then score + 20 else score in
   content_length <- py_get scraped_data "content_length" (PInt 0) ;;
   big <- py_gt_int content_length 1000 ;;
   score <- (if big then ret (score + 20)
            else medium <- py_gt_int content_length 500 ;;
                 ret (if medium then score + 10 else score)) ;;
   title <- py_get scraped_data "title" PNone ;;
   let score := if truthy title then score + 15 else score in
   description <- py_get scraped_data "description" PNone ;;
   let score := if truthy description then score + 10 else score in
   links_count <- py_get scraped_data "links_count" (PInt 0) ;;
   many <- py_gt_int links_count 10 ;;
   score <- (if many then ret (score + 15)
            else some <- py_gt_int links_count 5 ;;
                 ret (if some then score + 10 else score)) ;;
   has_ssl <- py_get scraped_data "has_ssl" (PBool false) ;;
   let score := if truthy has_ssl then score + 10 else score in
   framework_data <- py_get scraped_data "framework_detection" (PDict ∅) ;;
   modern <- py_any (λ fw : string, py_get framework_data fw (PBool false))
                   ["react"; "vue"; "angular"] ;;
   let score := if modern then score + 10 else score in
   ret (Z.min score 100)).




(** ** More operators of the source *)

(** [needle in hay] on two strings: substring test. *)
Fixpoint str_contains (needle hay : string) : bool :=
  String.prefix needle hay ||
  match hay with
  | EmptyString => false
  | String _ hay' => str_contains needle hay'
  end.

(** [v == s] for a string constant [s]. *)
Definition py_eq_str (v : pyval) (s : string) : bool :=
  match v with
  | PStr t => String.eqb t s
  | _ => false
  end.

(** [field in data] for a string [field]: key membership on a dict, element
    membership on a list, substring test on a string, a [TypeError] on the
    values that are no containers. *)
Definition py_contains (data : pyval) (field : string) : res bool :=
  match data with
  | PDict d => ret (bool_decide (is_Some (d !! field)))
  | PList l => ret (existsb (λ x, py_eq_str x field) l)
  | PStr s => ret (str_contains field s)
  | _ => raise (TypeError
                  ("argument of type '" +:+ type_name data +:+ "' is not iterable"))
  end.

(** [all(f(x) for x in l)]: stops at the first false element. *)
Fixpoint py_all {A} (f : A → res bool) (l : list A) : res bool :=
  match l with
  | [] => ret true
  | x :: l' => b <- f x ;; if b then py_all f l' else ret false
  end.

(** [len(v)] *)
Definition py_len (v : pyval) : res Z :=
  match v with
  | PStr s => ret (Z.of_nat (String.length s))
  | PList l => ret (Z.of_nat (length l))
  | PDict d => ret (Z.of_nat (size d))
  | _ => raise (TypeError
                  ("object of type '" +:+ type_name v +:+ "' has no len()"))
  end.

(** [s[:n]] on a string: the first [n] characters, or all of [s] when it is
    shorter. *)
Fixpoint str_take (n : nat) (s : string) : string :=
  match n, s with
  | S n', String c s' => String c (str_take n' s')
  | _, _ => EmptyString
  end.

(** ** validate_scraped_data *)

Definition validate_scraped_data (data : pyval) : res bool :=
  let required_fields := ["url"; "title"; "content"] in
  py_all (λ field : string, py_contains data field) required_fields.

(** ** uuid and datetime

    [uuid.uuid4()] and [datetime.utcnow()] are the standard library's; the
    model takes what they return as inputs of an invocation and embeds the
    two formatting functions the source applies to them. *)

Definition hex_digit (n : N) : ascii :=
  match n with
  | 0%N => "0" | 1%N => "1" | 2%N => "2" | 3%N => "3"
  | 4%N => "4" | 5%N => "5" | 6%N => "6" | 7%N => "7"
  | 8%N => "8" | 9%N => "9" | 10%N => "a" | 11%N => "b"
  | 12%N => "c" | 13%N => "d" | 14%N => "e" | _ => "f"
  end%char.

(** The [k] least significant hexadecimal digits of [n], most significant
    first: ['%0kx' % n] for [n < 16^k]. *)
Fixpoint hex_fixed (k : nat) (n : N) : string :=
  match k with
  | O => EmptyString
  | S k' => hex_fixed k' (n / 16) +:+ String (hex_digit (n mod 16)) EmptyString
  end.

(** [UUID.hex]: the 128-bit integer of the UUID as 32 hexadecimal digits. *)
Definition uuid_hex (u : N) : string := hex_fixed 32 u.

Definition dec_digit (n : N) : ascii := ascii_of_N (48 + n mod 10).

(** The [k] least significant decimal digits of [n]: ['%0kd' % n] for
    [n < 10^k]. *)
Fixpoint dec_fixed (k : nat) (n : N) : string :=
  match k with
  | O => EmptyString
  | S k' => dec_fixed k' (n / 10) +:+ String (dec_digit n) EmptyString
  end.

(** A naive [datetime]; the library keeps [1 <= year <= 9999], a day that
    exists in the month, and the time fields in their ranges
    ([valid_datetime] below). *)
Record datetime : Type := {
  year : N; month : N; day : N;
  hour : N; minute : N; second : N; microsecond : N
}.

(** [datetime.isoformat()] of a naive datetime:
    [YYYY-MM-DDTHH:MM:SS], followed by [.ffffff] when the microsecond is not
    zero. *)
Definition isoformat (dt : datetime) : string :=
  dec_fixed 4 (year dt) +:+ "-" +:+ dec_fixed 2 (month dt) +:+ "-"
    +:+ dec_fixed 2 (day dt) +:+ "T" +:+ dec_fixed 2 (hour dt) +:+ ":"
    +:+ dec_fixed 2 (minute dt) +:+ ":" +:+ dec_fixed 2 (second dt)
    +:+ (if (microsecond dt =? 0)%N then ""
         else "." +:+ dec_fixed 6 (microsecond dt)).



(** ** The table and the libraries behind the handler *)

(** What [urllib.parse.urlparse] returns. *)
Record ParseResult : Type := {
  scheme : string; netloc : string; path : string;
  params : string; query : string; fragment : string
}.

(** The DynamoDB table, as far as the source uses it: [table.query] with the
    key condition on [user_id] and the filter on [website_url] reads the
    table and returns a response or raises; [table.put_item] returns the
    table after the write or raises. *)
Class Table (T : Type) : Type := {
  table_query : T → pyval → pyval → res pyval;
  table_put_item : T → pyval → res T
}.

(** [json.loads], [json.dumps] and [urlparse].  [json.dumps] is total on
    the values the handler serialises (JSON-shaped values, strings and
    integers). *)
Class Libraries : Type := {
  json_loads : pyval → res pyval;
  json_dumps : pyval → string;
  urlparse : pyval → res ParseResult
}.

(** The state an invocation can change: the table and the lines printed. *)
Record world (T : Type) : Type := World {
  table : T;
  stdout : list string
}.
Arguments World {T} _ _.
Arguments table {T} _.
Arguments stdout {T} _.

(** Computations that raise and change the world; what was written before
    an exception stays written. *)
Definition M (T A : Type) : Type := world T → res A * world T.

#[global] Instance M_monad {T} : Monad (M T) := {|
  ret := λ A a w, (inr a, w);
  bind := λ A B m k w,
    match m w with
    | (inl e, w') => (inl e, w')
    | (inr a, w') => k a w'
    end
|}.

(** A computation without effect on the world. *)
Definition lift {T A} (r : res A) : M T A := λ w, (r, w).

(** [try: m  except Exception as e: h e] *)
Definition try_except {T A} (m : M T A) (h : exn → M T A) : M T A := λ w,
  match m w with
  | (inl e, w') => h e w'
  | (inr a, w') => (inr a, w')
  end.

(** [print(line)] *)
Definition print {T} (line : string) : M T unit := λ w,
  (inr tt, World (table w) (stdout w ++ [line])).

Section Handler.
Context {T : Type} `{!Table T} `{!Libraries}.

(** What this invocation gets from [uuid.uuid4()] (the UUID's integer) and
    from [datetime.utcnow()]. *)
Variable uuid4 : N.
Variable utcnow : datetime.

(** [table.query(...)] with the two expression values. *)
Definition m_query (user_id website_url : pyval) : M T pyval := λ w,
  (table_query (table w) user_id website_url, w).

(** [table.put_item(Item=item)] *)
Definition m_put_item (item : pyval) : M T unit := λ w,
  match table_put_item (table w) item with
  | inl e => (inl e, w)
  | inr t' => (inr tt, World t' (stdout w))
  end.

Definition create_response (data : pyval) (status_code : Z)
    (is_api_gateway : bool) : pyval :=
  if is_api_gateway then
    PDict (<["statusCode" := PInt status_code]>
          (<["headers" := PDict
               (<["Content-Type" := PStr "application/json"]>
               (<["Access-Control-Allow-Origin" := PStr "*"]>
               (<["Access-Control-Allow-Headers" := PStr "Content-Type"]>
               (<["Access-Control-Allow-Methods" := PStr "POST, OPTIONS"]> ∅))))]>
          (<["body" := PStr (json_dumps data)]> ∅)))
  else data.

Definition validate_url (url : pyval) : bool :=
  match urlparse url with
  | inr result => forallb truthy [PStr (scheme result); PStr (netloc result)]
  | inl _ => false
  end.

Definition generate_project_id : string :=
  "project_" +:+ str_take 12 (uuid_hex uuid4).

Definition create_project
    (user_id website_url category description scraped_data : pyval)
    : M T pyval :=
  let project_id := generate_project_id in
  let current_time := isoformat utcnow +:+ "Z" in
  health_score <- lift (calculate_health_score scraped_data) ;;
  title <- lift (py_get scraped_data "title" website_url) ;;
  let project_item :=
    PDict (<["user_id" := user_id]>
          (<["project_id" := PStr project_id]>
          (<["website_url" := website_url]>
          (<["category" := category]>
          (<["description" := description]>
          (<["title" := title]>
          (<["health_score" := PInt health_score]>
          (<["last_checked" := PStr current_time]>
          (<["status" := PStr "active"]>
          (<["created_at" := PStr current_time]>
          (<["updated_at" := PStr current_time]>
          (<["scraped_data" := scraped_data]> ∅)))))))))))) in
  m_put_item project_item ;;;
  ret project_item.

Definition check_duplicate_project (user_id website_url : pyval) : M T bool :=
  try_except
    (response <- m_query user_id website_url ;;
     items <- lift (py_get response "Items" (PList [])) ;;
     n <- lift (py_len items) ;;
     ret (0 <? n))
    (λ e,
      print ("Error checking for duplicate project: " +:+ exn_str e) ;;;
      ret false).

(** A response payload [{'success': False, 'error': msg}]. *)
Definition failure (msg : string) : pyval :=
  PDict (<["success" := PBool false]> (<["error" := PStr msg]> ∅)).

(** The handler after the payload is decoded: from "Extract required
    fields" to the success response. *)
Definition handle_body (is_api_gateway : bool) (body : pyval) : M T pyval :=
  website_url <- lift (py_get body "websiteUrl" PNone) ;;
  category <- lift (py_get body "category" (PStr "General")) ;;
  description <- lift (py_get body "description" (PStr "")) ;;
  scraped_data <- lift (py_get body "scrapedData" PNone) ;;
  user_id <- lift (py_get body "userId" (PStr "default_user")) ;;
  if negb (truthy website_url) then
    ret (create_response (failure "websiteUrl is required") 400 is_api_gateway)
  else if negb (truthy scraped_data) then
    ret (create_response (failure "scrapedData is required") 400 is_api_gateway)
  else if negb (validate_url website_url) then
    ret (create_response (failure "Invalid website URL format") 400 is_api_gateway)
  else
    shape_ok <- lift (validate_scraped_data scraped_data) ;;
    if negb shape_ok then
      ret (create_response (failure "Invalid scraped data structure") 400
             is_api_gateway)
    else
      duplicate <- check_duplicate_project user_id website_url ;;
      if (duplicate : bool) then
        ret (create_response (failure "Project already exists for this URL") 409
               is_api_gateway)
      else
        project <- create_project user_id website_url category description
                     scraped_data ;;
        ret (create_response
               (PDict (<["success" := PBool true]>
                      (<["data" := project]>
                      (<["message" := PStr "Project created successfully"]> ∅))))
               201 is_api_gateway).

(** [isinstance(event, dict) and 'body' in event] *)
Definition is_gateway_event (event : pyval) : bool :=
  match event with
  | PDict d => bool_decide (is_Some (d !! "body"))
  | _ => false
  end.

(** The [try] block of the handler. *)
Definition handler_try (is_api_gateway : bool) (event : pyval) : M T pyval :=
  if is_api_gateway then
    raw <- lift (py_get event "body" (PStr "{}")) ;;
    match json_loads raw with
    | inr body => handle_body is_api_gateway body
    | inl (JSONDecodeError _) =>
        ret (create_response (failure "Invalid JSON in request body") 400 true)
    | inl e => lift (raise e)
    end
  else
    handle_body is_api_gateway event.

Definition lambda_handler (event context : pyval) : world T → pyval * world T :=
  λ w,
  let is_api_gateway := is_gateway_event event in
  match handler_try is_api_gateway event w with
  | (inr response, w') => (response, w')
  | (inl e, w') =>
      let w'' := World (table w') (stdout w' ++ ["Error in lambda_handler: " +:+ exn_str e]) in
      (create_response
         (PDict (<["success" := PBool false]>
                (<["error" := PStr "Internal server error"]>
                (<["message" := PStr (exn_str e)]> ∅))))
         500 is_api_gateway, w'')
  end.

End Handler.

(** * The health scorer *)

(** ** The point scheme as the specification words it *)

Inductive factor : Type :=
| StatusCode | ContentLength | Title | Description | LinksCount | HasSsl
| FrameworkDetection.

Definition factors : list factor :=
  [StatusCode; ContentLength; Title; Description; LinksCount; HasSsl;
   FrameworkDetection].

Definition factor_key (f : factor) : string :=
  match f with
  | StatusCode => "status_code"
  | ContentLength => "content_length"
  | Title => "title"
  | Description => "description"
  | LinksCount => "links_count"
  | HasSsl => "has_ssl"
  | FrameworkDetection => "framework_detection"
  end.

(** [v > n] on a number; false on a value that is no number. *)
Definition exceeds (v : pyval) (n : Z) : bool :=
  match v with
  | PInt a => n <? a
  | PBool b => n <? Z.b2z b
  | PFloat f => PrimFloat.ltb (float_of_Z n) f
  | _ => false
  end.

(** Any of the [react] / [vue] / [angular] flags of the nested record is
    truthy. *)
Definition modern_framework (v : pyval) : bool :=
  match v with
  | PDict fd =>
      existsb (λ fw : string, from_option truthy false (fd !! fw))
        ["react"; "vue"; "angular"]
  | _ => false
  end.

(** The contribution of a factor, given what the record holds under the
    factor's key. *)
Definition points (f : factor) (entry : option pyval) : Z :=
  match entry with
  | None => 0
  | Some v =>
      match f with
      | StatusCode => if py_eq_int v 200 then 20 else 0
      | ContentLength =>
          if exceeds v 1000 then 20 else if exceeds v 500 then 10 else 0
      | Title => if truthy v then 15 else 0
      | Description => if truthy v then 10 else 0
      | LinksCount =>
          if exceeds v 10 then 15 else if exceeds v 5 then 10 else 0
      | HasSsl => if truthy v then 10 else 0
      | FrameworkDetection => if modern_framework v then 10 else 0
      end
  end.

Definition factor_sum (d : gmap string pyval) : Z :=
  foldr (λ f acc, points f (d !! factor_key f) + acc) 0 factors.

Definition spec_score (d : gmap string pyval) : Z := Z.min (factor_sum d) 100.

(** ** Records the scorer accepts *)

Definition is_number (v : pyval) : bool :=
  match v with
  | PInt _ | PBool _ | PFloat _ => true
  | _ => false
  end.

Definition is_dict (v : pyval) : bool :=
  match v with
  | PDict _ => true
  | _ => false
  end.

(** [content_length] and [links_count], when present, are numbers, and
    [framework_detection], when present, is a record. *)
Definition scorable (d : gmap string pyval) : bool :=
  from_option is_number true (d !! "content_length")
  && from_option is_number true (d !! "links_count")
  && from_option is_dict true (d !! "framework_detection").


(** The tier of a count, as the code computes it. *)
Definition tier (v : pyval) (hi lo : Z) (top mid score : Z) : res Z :=
  big <- py_gt_int v hi ;;
  if big then ret (score + top)
  else medium <- py_gt_int v lo ;;
       ret (if medium then score + mid else score).

Definition partial_record : gmap string pyval :=
  <["status_code" := PInt 200]> (<["content_length" := PInt 700]>
  (<["title" := PStr ""]> ∅)).

(** ** Improving one factor *)

(** The integer a count holds ([True] and [False] count as 1 and 0). *)
Definition as_int (v : pyval) : option Z :=
  match v with
  | PInt a => Some a
  | PBool b => Some (Z.b2z b)
  | _ => None
  end.

(** [old <= new] on two counts of one kind: two integers or two floats. *)
Definition raised (old new : pyval) : bool :=
  match as_int old, as_int new with
  | Some a, Some b => a <=? b
  | _, _ =>
      match old, new with
      | PFloat x, PFloat y => PrimFloat.leb x y
      | _, _ => false
      end
  end.

(** [improves d d']: [d'] is [d] with exactly one factor improved and every
    other key unchanged.  A count is raised from the number it holds (0 when
    the key is missing) to a number at least as large; the other factors are
    set to a value that earns their points. *)
Inductive improves (d : gmap string pyval) : gmap string pyval → Prop :=
| improve_status_code :
    improves d (<["status_code" := PInt 200]> d)
| improve_content_length new :
    raised (default (PInt 0) (d !! "content_length")) new = true →
    improves d (<["content_length" := new]> d)
| improve_links_count new :
    raised (default (PInt 0) (d !! "links_count")) new = true →
    improves d (<["links_count" := new]> d)
| improve_title v :
    truthy v = true → improves d (<["title" := v]> d)
| improve_description v :
    truthy v = true → improves d (<["description" := v]> d)
| improve_has_ssl v :
    truthy v = true → improves d (<["has_ssl" := v]> d)
| improve_framework fd fw v :
    default (PDict ∅) (d !! "framework_detection") = PDict fd →
    fw ∈ ["react"; "vue"; "angular"] →
    truthy v = true →
    improves d (<["framework_detection" := PDict (<[fw := v]> fd)]> d).

(** * Vocabulary of the handler's properties *)

(** [v[key]] on a dict, when the key is there. *)
Definition py_item (v : pyval) (key : string) : option pyval :=
  match v with
  | PDict d => d !! key
  | _ => None
  end.

(** The fields the handler extracts from a decoded payload, with their
    defaults. *)
Record request : Type := {
  req_website_url : pyval;
  req_category : pyval;
  req_description : pyval;
  req_scraped_data : pyval;
  req_user_id : pyval
}.

Definition request_of (body : gmap string pyval) : request := {|
  req_website_url := default PNone (body !! "websiteUrl");
  req_category := default (PStr "General") (body !! "category");
  req_description := default (PStr "") (body !! "description");
  req_scraped_data := default PNone (body !! "scrapedData");
  req_user_id := default (PStr "default_user") (body !! "userId")
|}.

(** The payload [{'success': True, 'data': project, 'message': ...}]. *)
Definition success (project : pyval) : pyval :=
  PDict (<["success" := PBool true]>
        (<["data" := project]>
        (<["message" := PStr "Project created successfully"]> ∅))).

(** The payload of the generic internal-error response. *)
Definition internal_error (e : exn) : pyval :=
  PDict (<["success" := PBool false]>
        (<["error" := PStr "Internal server error"]>
        (<["message" := PStr (exn_str e)]> ∅))).

Fixpoint string_forall (p : ascii → bool) (s : string) : bool :=
  match s with
  | EmptyString => true
  | String c s' => p c && string_forall p s'
  end.

Definition is_digit (c : ascii) : bool :=
  ((48 <=? N_of_ascii c) && (N_of_ascii c <=? 57))%N.

Definition is_lower_hex (c : ascii) : bool :=
  is_digit c || ((97 <=? N_of_ascii c) && (N_of_ascii c <=? 102))%N.

(** The pattern [project_] followed by exactly 12 lowercase hexadecimal
    characters. *)
Definition is_project_id (s : string) : bool :=
  String.prefix "project_" s
  && Nat.eqb (String.length s) 20
  && string_forall is_lower_hex (String.substring 8 12 s).

(** ** ISO-8601 timestamps in UTC *)

(** Reads exactly [k] decimal digits from the front of [s]: their value
    (on top of [acc]) and the rest of [s]. *)
Fixpoint read_digits (k : nat) (acc : N) (s : string) : option (N * string) :=
  match k with
  | O => Some (acc, s)
  | S k' =>
      match s with
      | String c s' =>
          if is_digit c
          then read_digits k' (10 * acc + (N_of_ascii c - 48)) s'
          else None
      | EmptyString => None
      end
  end.

(** Reads the character [c] from the front of [s]. *)
Definition expect (c : ascii) (s : string) : option string :=
  match s with
  | String c' s' => if Ascii.eqb c c' then Some s' else None
  | EmptyString => None
  end.

Definition is_leap (y : N) : bool :=
  ((y mod 4 =? 0) && (negb (y mod 100 =? 0) || (y mod 400 =? 0)))%N.

Definition days_in_month (y m : N) : N :=
  match m with
  | 2 => if is_leap y then 29 else 28
  | 4 | 6 | 9 | 11 => 30
  | _ => 31
  end%N.

Definition valid_date (y m d : N) : bool :=
  ((1 <=? m) && (m <=? 12) && (1 <=? d) && (d <=? days_in_month y m))%N.

Definition valid_time (h mi s : N) : bool :=
  ((h <? 24) && (mi <? 60) && (s <? 60))%N.

(** Digits up to a final [Z]. *)
Fixpoint digits_then_z (s : string) : bool :=
  match s with
  | EmptyString => false
  | String c s' =>
      if Ascii.eqb c "Z" then String.eqb s' ""
      else is_digit c && digits_then_z s'
  end.

(** What follows the seconds: the designator [Z], after an optional
    fraction of one or more digits. *)
Definition utc_designator (s : string) : bool :=
  match s with
  | EmptyString => false
  | String c s' =>
      if Ascii.eqb c "Z" then String.eqb s' ""
      else if Ascii.eqb c "." then
        match s' with
        | String d s'' => is_digit d && digits_then_z s''
        | EmptyString => false
        end
      else false
  end.

(** [YYYY-MM-DDTHH:MM:SS[.f+]Z] with an existing calendar date and a time
    of day: an ISO-8601 timestamp (extended format) in UTC. *)
Definition iso8601_utc (s : string) : bool :=
  match
    '(y, s) ← read_digits 4 0 s; s ← expect "-" s;
    '(m, s) ← read_digits 2 0 s; s ← expect "-" s;
    '(d, s) ← read_digits 2 0 s; s ← expect "T" s;
    '(h, s) ← read_digits 2 0 s; s ← expect ":" s;
    '(mi, s) ← read_digits 2 0 s; s ← expect ":" s;
    '(se, s) ← read_digits 2 0 s;
    Some (valid_date y m d && valid_time h mi se && utc_designator s)
  with
  | Some b => b
  | None => false
  end.

(** The invariant the library keeps on a [datetime]. *)
Definition valid_datetime (dt : datetime) : bool :=
  ((1 <=? year dt) && (year dt <=? 9999))%N
  && valid_date (year dt) (month dt) (day dt)
  && valid_time (hour dt) (minute dt) (second dt)
  && (microsecond dt <? 1000000)%N.

(** [s] ends with [suffix]. *)
Fixpoint ends_with (suffix s : string) : bool :=
  String.eqb suffix s ||
  match s with
  | EmptyString => false
  | String _ s' => ends_with suffix s'
  end.

(** * Instances to run the handler on examples *)

(** An in-memory table: the stored items, and whether the next [query] or
    [put_item] call fails.  User ids and URLs are string attributes. *)
Record mem_table : Type := MemTable {
  mem_items : list pyval;
  query_fails : bool;
  put_fails : bool
}.

Definition mem_query (t : mem_table) (user_id website_url : pyval) : res pyval :=
  if query_fails t then
    raise (OtherError "An error occurred (ServiceUnavailable) when calling the Query operation")
  else
    match user_id, website_url with
    | PStr u, PStr url =>
        ret (PDict {["Items" := PList
               (List.filter
                  (λ item,
                    from_option (λ v, py_eq_str v u) false (py_item item "user_id")
                    && from_option (λ v, py_eq_str v url) false
                         (py_item item "website_url"))
                  (mem_items t))]})
    | _, _ =>
        raise (OtherError "An error occurred (ValidationException) when calling the Query operation")
    end.

Definition mem_put_item (t : mem_table) (item : pyval) : res mem_table :=
  if put_fails t then
    raise (OtherError "An error occurred (ServiceUnavailable) when calling the PutItem operation")
  else
    ret (MemTable (mem_items t ++ [item]) (query_fails t) (put_fails t)).

#[global] Instance mem_table_ops : Table mem_table := {|
  table_query := mem_query;
  table_put_item := mem_put_item
|}.

(** The longest prefix of [s] whose characters satisfy [p], and the rest. *)
Fixpoint str_span (p : ascii → bool) (s : string) : string * string :=
  match s with
  | String c s' =>
      if p c then let '(a, b) := str_span p s' in (String c a, b)
      else (EmptyString, s)
  | EmptyString => (EmptyString, EmptyString)
  end.

Definition is_letter (c : ascii) : bool :=
  let n := N_of_ascii c in
  (((65 <=? n) && (n <=? 90)) || ((97 <=? n) && (n <=? 122)))%N.

Definition is_scheme_char (c : ascii) : bool :=
  is_letter c || is_digit c
  || Ascii.eqb c "+" || Ascii.eqb c "-" || Ascii.eqb c ".".

Definition is_authority_char (c : ascii) : bool :=
  negb (Ascii.eqb c "/" || Ascii.eqb c "?" || Ascii.eqb c "#").

(** A URL splitter for the examples: [scheme:] when the text before the
    first colon is a scheme name, then [//netloc] up to the next [/], [?]
    or [#], then the path, the query after [?] and the fragment after [#].
    Schemes are taken as written and parameters are left in the path. *)
Definition split_url (url : string) : ParseResult :=
  let '(name, rest) := str_span is_scheme_char url in
  let '(scheme, rest) :=
    match name, rest with
    | String c _, String ":" rest' => if is_letter c then (name, rest') else ("", url)
    | _, _ => ("", url)
    end in
  let '(netloc, rest) :=
    match rest with
    | String "/" (String "/" rest') => str_span is_authority_char rest'
    | _ => ("", rest)
    end in
  let '(rest, fragment) :=
    let '(a, b) := str_span (λ c, negb (Ascii.eqb c "#")) rest in
    (a, match b with String _ b' => b' | EmptyString => "" end) in
  let '(path, query) :=
    let '(a, b) := str_span (λ c, negb (Ascii.eqb c "?")) rest in
    (a, match b with String _ b' => b' | EmptyString => "" end) in
  {| scheme := scheme; netloc := netloc; path := path; params := "";
     query := query; fragment := fragment |}.

(** Stand-ins for the libraries: [json.loads] decodes the documents listed
    in [documents] and rejects every other text, [json.dumps] prints a
    placeholder, [urlparse] is [split_url] on a string. *)
Definition example_libraries (documents : list (string * pyval)) : Libraries := {|
  json_loads v :=
    match v with
    | PStr text =>
        match List.find (λ doc, String.eqb (fst doc) text) documents with
        | Some doc => ret (snd doc)
        | None => raise (JSONDecodeError "Expecting value: line 1 column 1 (char 0)")
        end
    | _ => raise (TypeError ("the JSON object must be str, bytes or bytearray, not "
                              +:+ type_name v))
    end;
  json_dumps _ := "<json>";
  urlparse v :=
    match v with
    | PStr url => ret (split_url url)
    | _ => raise (AttributeError
                    ("'" +:+ type_name v +:+ "' object has no attribute 'decode'"))
    end
|}.

(** * Requests *)

(** The decoded payload of an event: the event itself on a direct
    invocation, the decoded [body] on a gateway one. *)
Definition payload `{!Libraries} (event : pyval) : res pyval :=
  if is_gateway_event event then
    raw <- py_get event "body" (PStr "{}") ;;
    json_loads raw
  else ret event.

(** A request that passes the presence checks and both validators, so that
    the handler goes on to the duplicate check. *)
Definition accepted `{!Libraries} (r : request) : Prop :=
  truthy (req_website_url r) = true
  ∧ truthy (req_scraped_data r) = true
  ∧ validate_url (req_website_url r) = true
  ∧ validate_scraped_data (req_scraped_data r) = inr true.

(** ** The paths through the handler *)

Section Paths.
Context {T : Type} `{!Table T} `{!Libraries}.
Variable uuid4 : N.
Variable utcnow : datetime.

(** What the handler does once the checks are passed: the duplicate check,
    then the insert. *)
Definition after_checks (is_api_gateway : bool) (r : request) : M T pyval :=
  duplicate <- check_duplicate_project (req_user_id r) (req_website_url r) ;;
  if (duplicate : bool) then
    ret (create_response (failure "Project already exists for this URL") 409
           is_api_gateway)
  else
    project <- create_project uuid4 utcnow (req_user_id r) (req_website_url r)
                 (req_category r) (req_description r) (req_scraped_data r) ;;
    ret (create_response (success project) 201 is_api_gateway).

(** The handler's [except Exception] clause. *)
Definition recover (is_api_gateway : bool) (out : res pyval * world T)
    : pyval * world T :=
  match out with
  | (inr response, w') => (response, w')
  | (inl e, w') =>
      (create_response (internal_error e) 500 is_api_gateway,
       World (table w') (stdout w' ++ ["Error in lambda_handler: " +:+ exn_str e]))
  end.

End Paths.

(** ** The stored item *)

(** The item [create_project] assembles. *)
Definition project_item
    (user_id website_url category description scraped_data title : pyval)
    (project_id current_time : string) (health_score : Z) : pyval :=
  PDict (<["user_id" := user_id]>
        (<["project_id" := PStr project_id]>
        (<["website_url" := website_url]>
        (<["category" := category]>
        (<["description" := description]>
        (<["title" := title]>
        (<["health_score" := PInt health_score]>
        (<["last_checked" := PStr current_time]>
        (<["status" := PStr "active"]>
        (<["created_at" := PStr current_time]>
        (<["updated_at" := PStr current_time]>
        (<["scraped_data" := scraped_data]> ∅)))))))))))).

(** * Sample inputs *)

Definition sample_scraped : gmap string pyval :=
  <["url" := PStr "https://example.com"]> (<["title" := PStr "Example"]>
  (<["content" := PStr "<html></html>"]> (<["status_code" := PInt 200]>
  (<["has_ssl" := PBool true]> ∅)))).

Definition sample_body : gmap string pyval :=
  <["websiteUrl" := PStr "https://example.com"]>
  (<["userId" := PStr "u1"]>
  (<["scrapedData" := PDict sample_scraped]> ∅)).

(** The same request with an empty title in the scraped data. *)
Definition untitled_body : gmap string pyval :=
  <["scrapedData" := PDict (<["title" := PStr ""]> sample_scraped)]> sample_body.

Definition sample_uuid : N := 0x9f1c2e4a7b3d4c5e8f00112233445566.

Definition sample_now : datetime :=
  {| year := 2024; month := 2; day := 29; hour := 23; minute := 59;
     second := 7; microsecond := 120034 |}.

Definition empty_world : world mem_table := World (MemTable [] false false) [].

(** A table that already holds a project of user [u1] for the sample URL. *)
Definition stored_world : world mem_table :=
  World (MemTable
           [PDict (<["user_id" := PStr "u1"]>
                  (<["project_id" := PStr "project_0123456789ab"]>
                  (<["website_url" := PStr "https://example.com"]> ∅)))]
           false false) [].

(** A table whose queries fail. *)
Definition unreachable_world : world mem_table :=
  World (MemTable [] true false) [].

(** The text the sample libraries decode to [sample_body] (a stand-in for
    the JSON document). *)
Definition sample_text : string := "{sample request}".

Definition sample_libraries : Libraries :=
  example_libraries [(sample_text, PDict sample_body)].

(** A direct invocation and a gateway invocation of the handler on the
    samples. *)
Definition run_direct (body : gmap string pyval) (w : world mem_table)
    : pyval * world mem_table :=
  @lambda_handler mem_table mem_table_ops sample_libraries sample_uuid sample_now
    (PDict body) PNone w.

Definition run_gateway (text : pyval) (w : world mem_table)
    : pyval * world mem_table :=
  @lambda_handler mem_table mem_table_ops sample_libraries sample_uuid sample_now
    (PDict {["body" := text]}) PNone w.

(** [response['data'][key]] *)
Definition response_data (response : pyval) (key : string) : option pyval :=
  data ← py_item response "data"; py_item data key.

(** The sample request without scraped data and with a URL that has no
    scheme. *)
Definition schemeless_body : gmap string pyval :=
  {["websiteUrl" := PStr "example.com"]}.

(** The sample request with an empty record as scraped data. *)
Definition shapeless_body : gmap string pyval :=
  <["scrapedData" := PDict ∅]> sample_body.

(** The sample request with a URL that has no scheme. *)
Definition bad_url_body : gmap string pyval :=
  <["websiteUrl" := PStr "example.com"]> sample_body.

(** The sample request with scraped data that lacks [content]. *)
Definition bad_shape_body : gmap string pyval :=
  <["scrapedData" := PDict (delete "content" sample_scraped)]> sample_body.

(** The sample request with an empty [websiteUrl]. *)
Definition empty_url_body : gmap string pyval :=
  <["websiteUrl" := PStr ""]> sample_body.

(** The insert of the sample request into the empty table. *)
Definition sample_insert : res pyval * world mem_table :=
  @create_project mem_table mem_table_ops sample_uuid sample_now
    (PStr "u1") (PStr "https://example.com") (PStr "General") (PStr "")
    (PDict sample_scraped) empty_world.

Definition sample_project : pyval :=
  match fst sample_insert with
  | inr project => project
  | inl _ => PNone
  end.

(** * Outcomes of an invocation *)

(** The error strings of the 400 responses. *)
Definition client_errors : list string :=
  ["Invalid JSON in request body"; "websiteUrl is required";
   "scrapedData is required"; "Invalid website URL format";
   "Invalid scraped data structure"].

(** The status codes the handler passes to [create_response]. *)
Definition status_codes : list Z := [201; 400; 409; 500].

(** The headers of a gateway response. *)
Definition cors_headers : pyval :=
  PDict (<["Content-Type" := PStr "application/json"]>
        (<["Access-Control-Allow-Origin" := PStr "*"]>
        (<["Access-Control-Allow-Headers" := PStr "Content-Type"]>
        (<["Access-Control-Allow-Methods" := PStr "POST, OPTIONS"]> ∅)))).

Section Outcomes.
Context {T : Type} `{!Table T} `{!Libraries}.

(** [outcome gw w (response, w')]: what an invocation that started in the
    world [w] can return and leave behind.  A 400 or 409 leaves the world as
    it was; a 201 carries the project that one [put_item] wrote; a 500 leaves
    the table as it was and ends the printed lines with the error. *)
Inductive outcome (gw : bool) (w : world T) : pyval * world T → Prop :=
| outcome_bad_request (msg : string) :
    msg ∈ client_errors →
    outcome gw w (create_response (failure msg) 400 gw, w)
| outcome_conflict :
    outcome gw w
      (create_response (failure "Project already exists for this URL") 409 gw, w)
| outcome_created (project : pyval) (w' : world T) :
    table_put_item (table w) project = inr (table w') →
    outcome gw w (create_response (success project) 201 gw, w')
| outcome_internal_error (e : exn) (lines : list string) (w' : world T) :
    table w' = table w →
    stdout w'
    = (stdout w ++ lines ++ ["Error in lambda_handler: " +:+ exn_str e])%list →
    outcome gw w (create_response (internal_error e) 500 gw, w').

End Outcomes.

(** The line [check_duplicate_project] prints when it swallows [e]. *)
Definition duplicate_check_line (e : exn) : string :=
  "Error checking for duplicate project: " +:+ exn_str e.

(** The keys of a stored item. *)
Definition project_keys : gset string :=
  list_to_set
    ["user_id"; "project_id"; "website_url"; "category"; "description";
     "title"; "health_score"; "last_checked"; "status"; "created_at";
     "updated_at"; "scraped_data"].

(** The most a factor can earn. *)
Definition top_points (f : factor) : Z :=
  match f with
  | StatusCode | ContentLength => 20
  | Title | LinksCount => 15
  | Description | HasSsl | FrameworkDetection => 10
  end.

(** [s] has [t] as a substring. *)
Definition substring_of (t s : string) : Prop :=
  ∃ before after : string, s = before +:+ t +:+ after.

(** ** Reading identifiers and timestamps back *)

(** The value of a lowercase hexadecimal digit. *)
Definition hex_value (c : ascii) : N :=
  if is_digit c then N_of_ascii c - 48 else N_of_ascii c - 87.

(** What follows the seconds of a timestamp: the microseconds, 0 when there
    is no fraction. *)
Definition read_fraction (s : string) : option N :=
  match s with
  | EmptyString => None
  | String c s' =>
      if Ascii.eqb c "Z" then (if String.eqb s' "" then Some 0%N else None)
      else if Ascii.eqb c "." then
        '(us, s'') ← read_digits 6 0 s';
        if String.eqb s'' "Z" then Some us else None
      else None
  end.

(** Reads [YYYY-MM-DDTHH:MM:SS[.ffffff]Z] back into a [datetime]. *)
Definition parse_timestamp (s : string) : option datetime :=
  '(y, s) ← read_digits 4 0 s; s ← expect "-" s;
  '(m, s) ← read_digits 2 0 s; s ← expect "-" s;
  '(d, s) ← read_digits 2 0 s; s ← expect "T" s;
  '(h, s) ← read_digits 2 0 s; s ← expect ":" s;
  '(mi, s) ← read_digits 2 0 s; s ← expect ":" s;
  '(se, s) ← read_digits 2 0 s;
  us ← read_fraction s;
  Some {| year := y; month := m; day := d; hour := h; minute := mi;
          second := se; microsecond := us |}.

(** ** More sample inputs *)


(** The sample request with a list of the three field names as scraped
    data. *)
Definition list_body : gmap string pyval :=
  <["scrapedData" := PList [PStr "url"; PStr "title"; PStr "content"]]>
    sample_body.

(** The sample request with a number as scraped data. *)
Definition number_body : gmap string pyval :=
  <["scrapedData" := PInt 7]> sample_body.

(** A direct invocation of the handler with an event that is no object. *)
Definition run_event (event : pyval) (w : world mem_table)
    : pyval * world mem_table :=
  @lambda_handler mem_table mem_table_ops sample_libraries sample_uuid sample_now
    event PNone w.
(** * Examples of the embedded functions *)

Example score_full :
  calculate_health_score
    (PDict (<["status_code" := PInt 200]> (<["content_length" := PInt 1500]>
           (<["title" := PStr "T"]> (<["description" := PStr "D"]>
           (<["links_count" := PInt 12]> (<["has_ssl" := PBool true]>
           (<["framework_detection" := PDict {["react" := PBool true]}]> ∅))))))))
  = inr 100.
Proof. vm_compute. reflexivity. Qed.

Example score_empty : calculate_health_score (PDict ∅) = inr 0.
Proof. vm_compute. reflexivity. Qed.

Example score_float :
  calculate_health_score (PDict {["content_length" := PFloat 600.5%float]}) = inr 10.
Proof. vm_compute. reflexivity. Qed.

Example isoformat_ex :
  isoformat {| year := 2024; month := 3; day := 9; hour := 7; minute := 5;
               second := 0; microsecond := 1234 |}
  = "2024-03-09T07:05:00.001234".
Proof. reflexivity. Qed.

Example uuid_hex_ex :
  str_take 12 (uuid_hex 0xdeadbeef0123456789abcdef00000001%N) = "deadbeef0123".
Proof. reflexivity. Qed.

(** ** The code computes the point scheme *)

Lemma py_gt_int_number v n : is_number v = true → py_gt_int v n = inr (exceeds v n).
Proof. destruct v; simpl; intros; done. Qed.

Lemma py_gt_int_defined v n b : py_gt_int v n = inr b → is_number v = true.
Proof. destruct v; simpl; intros; done. Qed.

Lemma py_any_flags (fd : gmap string pyval) (l : list string) :
  py_any (λ fw : string, py_get (PDict fd) fw (PBool false)) l
  = inr (existsb (λ fw : string, from_option truthy false (fd !! fw)) l).
Proof.
  induction l as [|fw l IH]; [done|].
  simpl. destruct (fd !! fw) as [v|]; simpl.
  - destruct (truthy v); [done|]. exact IH.
  - exact IH.
Qed.

Lemma py_any_not_dict v (l : list string) fw :
  is_dict v = false →
  ∃ e, py_any (λ fw : string, py_get v fw (PBool false)) (fw :: l) = inl e.
Proof. destruct v; simpl; intros; try done; eauto. Qed.


Lemma tier_number v hi lo top mid score :
  is_number v = true →
  tier v hi lo top mid score
  = inr (score + (if exceeds v hi then top else if exceeds v lo then mid else 0)).
Proof.
  intros Hv. unfold tier. rewrite !py_gt_int_number by done. simpl.
  destruct (exceeds v hi), (exceeds v lo); simpl; f_equal; lia.
Qed.

Lemma tier_defined v hi lo top mid score s :
  tier v hi lo top mid score = inr s → is_number v = true.
Proof.
  unfold tier. destruct (py_gt_int v hi) eqn:E; simpl; [done|].
  intros _. eapply py_gt_int_defined, E.
Qed.

(** The body of [calculate_health_score] on a record, with the two tiers
    named. *)
Lemma score_unfold d :
  calculate_health_score (PDict d) =
  (let status_code := default (PInt 0) (d !! "status_code") in
   let content_length := default (PInt 0) (d !! "content_length") in
   let title := default PNone (d !! "title") in
   let description := default PNone (d !! "description") in
   let links_count := default (PInt 0) (d !! "links_count") in
   let has_ssl := default (PBool false) (d !! "has_ssl") in
   let framework_data := default (PDict ∅) (d !! "framework_detection") in
   score <- tier content_length 1000 500 20 10
              (if py_eq_int status_code 200 then 0 + 20 else 0) ;;
   score <- tier links_count 10 5 15 10
              (let score := if truthy title then score + 15 else score in
               if truthy description then score + 10 else score) ;;
   let score := if truthy has_ssl then score + 10 else score in
   modern <- py_any (λ fw : string, py_get framework_data fw (PBool false))
               ["react"; "vue"; "angular"] ;;
   ret (Z.min (if (modern : bool) then score + 10 else score) 100)).
Proof.
  unfold calculate_health_score, tier. simpl.
  repeat match goal with
         | |- context [match ?x with inl _ => _ | inr _ => _ end] =>
             destruct x; simpl; try reflexivity
         end.
Qed.

Lemma scorable_inv d :
  scorable d = true →
  is_number (default (PInt 0) (d !! "content_length")) = true ∧
  is_number (default (PInt 0) (d !! "links_count")) = true ∧
  ∃ fd, default (PDict ∅) (d !! "framework_detection") = PDict fd.
Proof.
  unfold scorable. rewrite !andb_true_iff. intros [[Hc Hl] Hf].
  destruct (d !! "content_length"), (d !! "links_count"),
    (d !! "framework_detection") as [[]|]; simpl in *; try done; eauto.
Qed.

Lemma points_lookup f (d : gmap string pyval) dflt :
  points f (Some dflt) = 0 →
  points f (d !! factor_key f) = points f (Some (default dflt (d !! factor_key f))).
Proof. intros H. destruct (d !! factor_key f); [reflexivity | symmetry; exact H]. Qed.

Lemma score_scorable d :
  scorable d = true → calculate_health_score (PDict d) = inr (spec_score d).
Proof.
  intros (Hc & Hl & fd & Hf)%scorable_inv.
  rewrite score_unfold. cbv zeta.
  rewrite Hf, py_any_flags.
  rewrite (tier_number _ _ _ _ _ _ Hc). cbn [bind ret res_monad].
  rewrite (tier_number _ _ _ _ _ _ Hl). cbn [bind ret res_monad]. f_equal.
  unfold spec_score, factor_sum, factors. cbn [foldr].
  rewrite (points_lookup StatusCode d (PInt 0)) by done.
  rewrite (points_lookup ContentLength d (PInt 0)) by done.
  rewrite (points_lookup Title d PNone) by done.
  rewrite (points_lookup Description d PNone) by done.
  rewrite (points_lookup LinksCount d (PInt 0)) by done.
  rewrite (points_lookup HasSsl d (PBool false)) by done.
  rewrite (points_lookup FrameworkDetection d (PDict ∅)) by done.
  cbn [factor_key]. rewrite Hf. cbn [points modern_framework].
  f_equal.
  repeat match goal with |- context [if ?x then _ else _] => destruct x end; lia.
Qed.

Lemma score_defined d s :
  calculate_health_score (PDict d) = inr s → scorable d = true.
Proof.
  rewrite score_unfold. cbv zeta. intros H.
  destruct (tier (default (PInt 0) (d !! "content_length")) _ _ _ _ _)
    as [|s1] eqn:E1; [done|].
  apply tier_defined in E1. cbn [bind res_monad] in H.
  destruct (tier (default (PInt 0) (d !! "links_count")) _ _ _ _ _)
    as [|s2] eqn:E2; [done|].
  apply tier_defined in E2. cbn [bind res_monad] in H.
  assert (Hf : is_dict (default (PDict ∅) (d !! "framework_detection")) = true).
  { destruct (is_dict _) eqn:Ev; [done|].
    destruct (py_any_not_dict _ ["vue"; "angular"] "react" Ev) as [e He].
    rewrite He in H. done. }
  unfold scorable.
  destruct (d !! "content_length"), (d !! "links_count"),
    (d !! "framework_detection"); simpl in *; rewrite ?E1, ?E2, ?Hf; done.
Qed.

Lemma points_bounds f entry : 0 ≤ points f entry ≤ 20.
Proof.
  destruct entry as [v|]; [|simpl; lia].
  destruct f; simpl;
    repeat match goal with |- context [if ?x then _ else _] => destruct x end;
    lia.
Qed.

Lemma points_max f entry :
  points f entry ≤
  match f with
  | StatusCode | ContentLength => 20
  | Title | LinksCount => 15
  | Description | HasSsl | FrameworkDetection => 10
  end.
Proof.
  destruct entry as [v|]; [|destruct f; simpl; lia].
  destruct f; simpl;
    repeat match goal with |- context [if ?x then _ else _] => destruct x end;
    lia.
Qed.

Lemma factor_sum_bounds d : 0 ≤ factor_sum d ≤ 100.
Proof.
  unfold factor_sum, factors. cbn [foldr].
  pose proof (points_bounds StatusCode (d !! factor_key StatusCode)).
  pose proof (points_bounds ContentLength (d !! factor_key ContentLength)).
  pose proof (points_bounds Title (d !! factor_key Title)).
  pose proof (points_bounds Description (d !! factor_key Description)).
  pose proof (points_bounds LinksCount (d !! factor_key LinksCount)).
  pose proof (points_bounds HasSsl (d !! factor_key HasSsl)).
  pose proof (points_bounds FrameworkDetection (d !! factor_key FrameworkDetection)).
  pose proof (points_max StatusCode (d !! factor_key StatusCode)).
  pose proof (points_max ContentLength (d !! factor_key ContentLength)).
  pose proof (points_max Title (d !! factor_key Title)).
  pose proof (points_max Description (d !! factor_key Description)).
  pose proof (points_max LinksCount (d !! factor_key LinksCount)).
  pose proof (points_max HasSsl (d !! factor_key HasSsl)).
  pose proof (points_max FrameworkDetection (d !! factor_key FrameworkDetection)).
  simpl in *. lia.
Qed.

(** C1, as amended.  On every record in which [content_length] and
    [links_count], when present, are numbers and [framework_detection], when
    present, is a record, [calculate_health_score] returns an integer: the
    minimum of 100 and the sum of the factor contributions, which lies in
    [0, 100]; a factor whose key is missing contributes 0. *)
Theorem health_score_range (d : gmap string pyval) :
  scorable d = true →
  calculate_health_score (PDict d) = inr (Z.min (factor_sum d) 100)
  ∧ 0 ≤ Z.min (factor_sum d) 100 ≤ 100
  ∧ ∀ f, d !! factor_key f = None → points f (d !! factor_key f) = 0.
Proof.
  intros Hd. split; [exact (score_scorable d Hd)|]. split.
  - pose proof (factor_sum_bounds d). lia.
  - intros f ->. reflexivity.
Qed.


Lemma health_score_range_witness :
  calculate_health_score (PDict partial_record) = inr 30
  ∧ points Description (partial_record !! factor_key Description) = 0.
Proof.
  assert (Hd : scorable partial_record = true) by (vm_compute; reflexivity).
  destruct (health_score_range partial_record Hd) as (Hs & _ & Hmiss).
  split.
  - rewrite Hs. vm_compute. reflexivity.
  - apply Hmiss. vm_compute. reflexivity.
Defined.

(** C1, as stated, fails: a record whose [content_length] is [null] makes
    the comparison [content_length > 1000] raise, so no integer is
    returned. *)
Lemma health_score_raises_on_null_length :
  ¬ ∃ s : Z,
      calculate_health_score (PDict {["content_length" := PNone]}) = inr s
      ∧ 0 ≤ s ≤ 100.
Proof. intros (s & Hs & _). vm_compute in Hs. discriminate Hs. Qed.

Example null_length_error :
  calculate_health_score (PDict {["content_length" := PNone]})
  = inl (TypeError "'>' not supported between instances of 'NoneType' and 'int'").
Proof. vm_compute. reflexivity. Qed.

Example list_as_framework_detection_error :
  calculate_health_score (PDict {["framework_detection" := PList [PStr "react"]]})
  = inl (AttributeError "'list' object has no attribute 'get'").
Proof. vm_compute. reflexivity. Qed.

(** ** Monotonicity *)

(** Changing the entry of one factor's key changes that factor's points
    only. *)
Lemma factor_sum_insert (f : factor) (v : pyval) (d : gmap string pyval) :
  factor_sum (<[factor_key f := v]> d)
  = factor_sum d - points f (d !! factor_key f) + points f (Some v).
Proof.
  unfold factor_sum, factors. cbn [foldr].
  destruct f; cbn [factor_key]; simplify_map_eq; lia.
Qed.

Lemma scorable_insert_other (k : string) (v : pyval) (d : gmap string pyval) :
  k ≠ "content_length" → k ≠ "links_count" → k ≠ "framework_detection" →
  scorable (<[k := v]> d) = scorable d.
Proof. intros. unfold scorable. by simplify_map_eq. Qed.

(** The order of floats, from the specification of the primitive
    comparisons. *)
Lemma SFltb_SFleb_trans (c x y : spec_float) :
  SFltb c x = true → SFleb x y = true → SFltb c y = true.
Proof.
  unfold SFltb, SFleb.
  destruct c as [sc|sc| |sc mc ec], x as [sx|sx| |sx mx ex],
    y as [sy|sy| |sy my ey];
    simpl; try discriminate; try reflexivity;
    repeat match goal with s : bool |- _ => destruct s end; simpl;
    try discriminate; try reflexivity.
  all: repeat match goal with
         | |- context [Z.compare ?a ?b] => destruct (Z.compare_spec a b); subst
         | |- context [Pos.compare_cont ?r ?a ?b] =>
             rewrite (Pos.compare_cont_spec a b r)
         | |- context [Pos.compare ?a ?b] =>
             destruct (Pos.compare_spec a b); subst
         end; simpl; try discriminate; try reflexivity; try lia.
Qed.

Lemma float_ltb_leb_trans (c x y : float) :
  PrimFloat.ltb c x = true → PrimFloat.leb x y = true → PrimFloat.ltb c y = true.
Proof.
  rewrite !FloatAxioms.ltb_spec, FloatAxioms.leb_spec.
  apply SFltb_SFleb_trans.
Qed.

Lemma raised_exceeds (old new : pyval) (n : Z) :
  raised old new = true → exceeds old n = true → exceeds new n = true.
Proof.
  unfold raised.
  destruct old, new; simpl; try done;
    rewrite ?Z.leb_le, ?Z.ltb_lt; try lia.
  intros Hle Hlt. by eapply float_ltb_leb_trans.
Qed.

Lemma raised_number (old new : pyval) : raised old new = true → is_number new = true.
Proof. unfold raised. destruct old, new; simpl; done. Qed.

Lemma count_points_mono (f : factor) (old new : pyval) :
  f = ContentLength ∨ f = LinksCount →
  raised old new = true →
  points f (Some old) ≤ points f (Some new).
Proof.
  intros Hf Hr.
  pose proof (λ n, raised_exceeds old new n Hr) as He.
  destruct Hf as [-> | ->]; cbn [points];
    repeat match goal with
           | |- context [exceeds old ?n] =>
               let E := fresh in
               destruct (exceeds old n) eqn:E; [rewrite (He _ E)|]
           end;
    repeat match goal with |- context [if ?x then _ else _] => destruct x end;
    lia.
Qed.

Lemma count_points_default (f : factor) (d : gmap string pyval) :
  f = ContentLength ∨ f = LinksCount →
  points f (d !! factor_key f)
  = points f (Some (default (PInt 0) (d !! factor_key f))).
Proof. intros [-> | ->]; by apply points_lookup. Qed.

Lemma improves_factor_sum d d' :
  improves d d' → factor_sum d ≤ factor_sum d'.
Proof.
  destruct 1 as [|new Hr|new Hr|v Hv|v Hv|v Hv|fd fw v Hfd Hfw Hv].
  - rewrite (factor_sum_insert StatusCode).
    pose proof (points_max StatusCode (d !! factor_key StatusCode)).
    simpl in *. lia.
  - rewrite (factor_sum_insert ContentLength).
    rewrite (count_points_default ContentLength) by auto.
    pose proof (count_points_mono ContentLength _ new (or_introl eq_refl) Hr).
    cbn [factor_key] in *. lia.
  - rewrite (factor_sum_insert LinksCount).
    rewrite (count_points_default LinksCount) by auto.
    pose proof (count_points_mono LinksCount _ new (or_intror eq_refl) Hr).
    cbn [factor_key] in *. lia.
  - rewrite (factor_sum_insert Title).
    pose proof (points_max Title (d !! factor_key Title)).
    simpl in *. rewrite Hv. lia.
  - rewrite (factor_sum_insert Description).
    pose proof (points_max Description (d !! factor_key Description)).
    simpl in *. rewrite Hv. lia.
  - rewrite (factor_sum_insert HasSsl).
    pose proof (points_max HasSsl (d !! factor_key HasSsl)).
    simpl in *. rewrite Hv. lia.
  - rewrite (factor_sum_insert FrameworkDetection).
    pose proof (points_max FrameworkDetection (d !! factor_key FrameworkDetection)).
    assert (Hm : modern_framework (PDict (<[fw := v]> fd)) = true).
    { unfold modern_framework. apply existsb_exists. exists fw. split.
      - by apply list_elem_of_In.
      - by rewrite lookup_insert_eq. }
    cbn [points factor_key] in *. rewrite Hm. lia.
Qed.

Lemma improves_scorable d d' :
  improves d d' → scorable d = true → scorable d' = true.
Proof.
  destruct 1 as [|new Hr|new Hr|v Hv|v Hv|v Hv|fd fw v Hfd Hfw Hv];
    intros Hd; rewrite ?scorable_insert_other by done; try done;
    try apply raised_number in Hr;
    revert Hd; unfold scorable; simplify_map_eq; simpl;
    rewrite ?Hr, ?andb_true_r; try done;
    rewrite !andb_true_iff; tauto.
Qed.

(** C2.  Whenever [calculate_health_score] returns a score for a record,
    it returns a score at least as large for the record with one factor
    improved and the other keys unchanged: [status_code] set to 200,
    [content_length] or [links_count] raised, [title], [description] or
    [has_ssl] made truthy, or a [react] / [vue] / [angular] flag of
    [framework_detection] made truthy. *)
Theorem health_score_monotone (d d' : gmap string pyval) (s : Z) :
  improves d d' →
  calculate_health_score (PDict d) = inr s →
  ∃ s', calculate_health_score (PDict d') = inr s' ∧ s ≤ s'.
Proof.
  intros Himp Hs.
  pose proof (score_defined d s Hs) as Hd.
  rewrite (score_scorable d Hd) in Hs. injection Hs as <-.
  exists (spec_score d'). split.
  - apply score_scorable. by eapply improves_scorable.
  - unfold spec_score. pose proof (improves_factor_sum d d' Himp). lia.
Qed.

Lemma health_score_monotone_witness :
  ∃ s', calculate_health_score
          (PDict (<["content_length" := PInt 1200]> partial_record)) = inr s'
        ∧ 30 ≤ s'.
Proof.
  apply (health_score_monotone partial_record
           (<["content_length" := PInt 1200]> partial_record) 30).
  - apply (improve_content_length partial_record (PInt 1200)).
    vm_compute. reflexivity.
  - vm_compute. reflexivity.
Defined.

Example iso8601_utc_examples :
  iso8601_utc "2024-03-09T07:05:00.001234Z" = true
  ∧ iso8601_utc "2024-02-29T23:59:59Z" = true
  ∧ iso8601_utc "2023-02-29T23:59:59Z" = false
  ∧ iso8601_utc "2024-03-09T07:05:00" = false
  ∧ iso8601_utc "2024-03-09T07:05:00.Z" = false
  ∧ iso8601_utc "2024-3-9T07:05:00Z" = false.
Proof. vm_compute. repeat split. Qed.

Example is_project_id_examples :
  is_project_id "project_deadbeef0123" = true
  ∧ is_project_id "project_DEADBEEF0123" = false
  ∧ is_project_id "project_deadbeef01234" = false
  ∧ is_project_id "project_deadbeef012" = false.
Proof. vm_compute. repeat split. Qed.

Example split_url_examples :
  split_url "https://example.com/a/b?x=1#top"
  = {| scheme := "https"; netloc := "example.com"; path := "/a/b"; params := "";
       query := "x=1"; fragment := "top" |}
  ∧ split_url "example.com"
    = {| scheme := ""; netloc := ""; path := "example.com"; params := "";
         query := ""; fragment := "" |}
  ∧ split_url "//example.com/x"
    = {| scheme := ""; netloc := "example.com"; path := "/x"; params := "";
         query := ""; fragment := "" |}
  ∧ split_url "mailto:someone"
    = {| scheme := "mailto"; netloc := ""; path := "someone"; params := "";
         query := ""; fragment := "" |}.
Proof. vm_compute. repeat split. Qed.

(** * The handler *)

Section HandlerFacts.
Context {T : Type} `{!Table T} `{!Libraries}.
Variable uuid4 : N.
Variable utcnow : datetime.

#[local] Abbreviation create_project := (create_project uuid4 utcnow).
#[local] Abbreviation handle_body := (handle_body uuid4 utcnow).
#[local] Abbreviation handler_try := (handler_try uuid4 utcnow).
#[local] Abbreviation lambda_handler := (lambda_handler uuid4 utcnow).

(** ** The duplicate check *)

Lemma check_duplicate_query_error (user_id website_url : pyval) (w : world T) e :
  table_query (table w) user_id website_url = inl e →
  check_duplicate_project user_id website_url w
  = (inr false,
     World (table w)
       (stdout w ++ ["Error checking for duplicate project: " +:+ exn_str e])).
Proof.
  intros He. unfold check_duplicate_project, try_except, m_query.
  cbn [bind M_monad]. rewrite He. reflexivity.
Qed.

Lemma check_duplicate_returns (user_id website_url : pyval) (w : world T) :
  ∃ b w', check_duplicate_project user_id website_url w = (inr b, w')
          ∧ table w' = table w ∧ (b = true → w' = w).
Proof.
  unfold check_duplicate_project, try_except, m_query, lift, print.
  cbn [bind ret M_monad].
  destruct (table_query _ _ _) as [e|response];
    [|destruct (py_get response _ _) as [e|items];
      [|destruct (py_len items) as [e|n]]];
    eexists _, _; (split; [reflexivity|]); (split; [reflexivity|]); done.
Qed.

Lemma check_duplicate_true (user_id website_url : pyval) (w w' : world T) :
  check_duplicate_project user_id website_url w = (inr true, w') → w' = w.
Proof.
  intros Hc.
  destruct (check_duplicate_returns user_id website_url w) as (b & w1 & H1 & _ & Hw).
  rewrite H1 in Hc. injection Hc as -> ->. by apply Hw.
Qed.

(** ** The path of an accepted request *)



Lemma lambda_handler_payload (event context body : pyval) (w : world T) :
  payload event = inr body →
  lambda_handler event context w
  = recover (is_gateway_event event)
      (handle_body (is_gateway_event event) body w).
Proof.
  unfold payload, lambda_handler, handler_try, recover.
  destruct (is_gateway_event event) eqn:Hgw.
  - destruct event as [| | | | | |d]; try done. cbn [py_get bind ret res_monad M_monad lift].
    intros ->. reflexivity.
  - intros [= ->]. reflexivity.
Qed.

Lemma handle_body_missing_url gw (b : gmap string pyval) (w : world T) :
  truthy (req_website_url (request_of b)) = false →
  handle_body gw (PDict b) w
  = (inr (create_response (failure "websiteUrl is required") 400 gw), w).
Proof.
  intros Hu. unfold handle_body, lift. cbn [py_get bind ret res_monad M_monad].
  simpl in Hu. rewrite Hu. reflexivity.
Qed.

Lemma handle_body_missing_data gw (b : gmap string pyval) (w : world T) :
  truthy (req_website_url (request_of b)) = true →
  truthy (req_scraped_data (request_of b)) = false →
  handle_body gw (PDict b) w
  = (inr (create_response (failure "scrapedData is required") 400 gw), w).
Proof.
  intros Hu Hs. unfold handle_body, lift. cbn [py_get bind ret res_monad M_monad].
  simpl in Hu, Hs. rewrite Hu, Hs. reflexivity.
Qed.

Lemma handle_body_invalid_url gw (b : gmap string pyval) (w : world T) :
  truthy (req_website_url (request_of b)) = true →
  truthy (req_scraped_data (request_of b)) = true →
  validate_url (req_website_url (request_of b)) = false →
  handle_body gw (PDict b) w
  = (inr (create_response (failure "Invalid website URL format") 400 gw), w).
Proof.
  intros Hu Hs Hv. unfold handle_body, lift.
  cbn [py_get bind ret res_monad M_monad].
  simpl in Hu, Hs, Hv. rewrite Hu, Hs, Hv. reflexivity.
Qed.

Lemma handle_body_invalid_data gw (b : gmap string pyval) (w : world T) :
  truthy (req_website_url (request_of b)) = true →
  truthy (req_scraped_data (request_of b)) = true →
  validate_url (req_website_url (request_of b)) = true →
  validate_scraped_data (req_scraped_data (request_of b)) = inr false →
  handle_body gw (PDict b) w
  = (inr (create_response (failure "Invalid scraped data structure") 400 gw), w).
Proof.
  intros Hu Hs Hv Hd. unfold handle_body, lift.
  cbn [py_get bind ret res_monad M_monad].
  simpl in Hu, Hs, Hv, Hd. rewrite Hu, Hs, Hv, Hd. reflexivity.
Qed.

Lemma handle_body_accepted gw (b : gmap string pyval) (w : world T) :
  accepted (request_of b) →
  handle_body gw (PDict b) w = after_checks uuid4 utcnow gw (request_of b) w.
Proof.
  intros (Hu & Hs & Hv & Hd). unfold handle_body, after_checks, lift.
  cbn [py_get bind ret res_monad M_monad].
  simpl in Hu, Hs, Hv, Hd. rewrite Hu, Hs, Hv, Hd. reflexivity.
Qed.

(** ** Conflict *)

(** C3.  Whenever the handler's duplicate check, run on the user id and the
    website URL of the request, returns true, the handler returns the 409
    response with success false and the error [Project already exists for
    this URL], and leaves the world as it found it: nothing is inserted.
    (On a direct invocation [create_response] returns the payload without
    the status code.) *)
Theorem duplicate_is_conflict (event context : pyval) (b : gmap string pyval)
    (w w' : world T) :
  payload event = inr (PDict b) →
  accepted (request_of b) →
  check_duplicate_project (req_user_id (request_of b))
    (req_website_url (request_of b)) w = (inr true, w') →
  lambda_handler event context w
  = (create_response (failure "Project already exists for this URL") 409
       (is_gateway_event event), w).
Proof.
  intros Hp Ha Hc.
  rewrite (lambda_handler_payload _ _ _ _ Hp), (handle_body_accepted _ _ _ Ha).
  pose proof (check_duplicate_true _ _ _ _ Hc) as ->.
  unfold after_checks. cbn [bind M_monad].
  rewrite Hc. reflexivity.
Qed.

(** C4.  When the table's query raises, [check_duplicate_project] returns
    false after printing the error; and the handler, on an accepted request
    with this user id and URL, goes on to the insert: its response is the 201
    of a successful insert or the 500 of an exception raised by the insert
    step, never a 409 and never a 500 carrying the query's exception. *)
Theorem duplicate_check_fails_open (user_id website_url : pyval) (w : world T)
    (e : exn) :
  table_query (table w) user_id website_url = inl e →
  check_duplicate_project user_id website_url w
  = (inr false,
     World (table w)
       (stdout w ++ ["Error checking for duplicate project: " +:+ exn_str e]))
  ∧ ∀ (event context : pyval) (b : gmap string pyval),
      payload event = inr (PDict b) →
      accepted (request_of b) →
      req_user_id (request_of b) = user_id →
      req_website_url (request_of b) = website_url →
      (∃ project w2,
          create_project user_id website_url (req_category (request_of b))
            (req_description (request_of b)) (req_scraped_data (request_of b))
            (World (table w)
               (stdout w ++ ["Error checking for duplicate project: " +:+ exn_str e]))
          = (inr project, w2)
          ∧ lambda_handler event context w
            = (create_response (success project) 201 (is_gateway_event event), w2))
      ∨ (∃ e' w2,
          create_project user_id website_url (req_category (request_of b))
            (req_description (request_of b)) (req_scraped_data (request_of b))
            (World (table w)
               (stdout w ++ ["Error checking for duplicate project: " +:+ exn_str e]))
          = (inl e', w2)
          ∧ lambda_handler event context w
            = (create_response (internal_error e') 500 (is_gateway_event event),
               World (table w2)
                 (stdout w2 ++ ["Error in lambda_handler: " +:+ exn_str e']))).
Proof.
  intros He. pose proof (check_duplicate_query_error _ _ _ _ He) as Hc.
  split; [exact Hc|].
  intros event context b Hp Ha <- <-.
  rewrite (lambda_handler_payload _ _ _ _ Hp), (handle_body_accepted _ _ _ Ha).
  unfold after_checks. cbn [bind M_monad].
  rewrite Hc.
  destruct (create_project _ _ _ _ _ _) as [[e'|project] w2]; [right|left];
    eexists _, _; split; reflexivity.
Qed.

(** ** Presence and validation *)

(** C10.  A [websiteUrl] that is present but falsy gets the 400 response
    [websiteUrl is required]; a [scrapedData] that is present but falsy gets
    the 400 response [scrapedData is required] (after the check of
    [websiteUrl], whose response comes first when that field is falsy or
    missing too).  Either way the world is unchanged, and the response does
    not depend on [urlparse] or on the shape of the scraped data: no
    validation has run. *)
Theorem falsy_field_is_missing (event context : pyval) (b : gmap string pyval)
    (w : world T) :
  payload event = inr (PDict b) →
  (∀ v, b !! "websiteUrl" = Some v → truthy v = false →
     lambda_handler event context w
     = (create_response (failure "websiteUrl is required") 400
          (is_gateway_event event), w))
  ∧ (∀ v, b !! "scrapedData" = Some v → truthy v = false →
     lambda_handler event context w
     = (create_response
          (failure (if truthy (req_website_url (request_of b))
                    then "scrapedData is required"
                    else "websiteUrl is required")) 400
          (is_gateway_event event), w)).
Proof.
  intros Hp. rewrite (lambda_handler_payload _ _ _ _ Hp). split.
  - intros v Hv Hf. rewrite handle_body_missing_url; [done|].
    simpl. by rewrite Hv.
  - intros v Hv Hf. destruct (truthy (req_website_url (request_of b))) eqn:Hu.
    + rewrite handle_body_missing_data; [done..|]. simpl. by rewrite Hv.
    + by rewrite handle_body_missing_url.
Qed.

(** C6, as amended.  [validate_url] is true exactly when [urlparse] returns
    a result whose scheme and netloc are both non-empty, and false when
    [urlparse] raises; and every request whose [websiteUrl] and
    [scrapedData] are both truthy and whose [websiteUrl] fails the check gets
    the 400 response [Invalid website URL format]. *)
Theorem invalid_url_rejected (event context : pyval) (b : gmap string pyval)
    (w : world T) :
  (∀ url, validate_url url = true
          ↔ ∃ r, urlparse url = inr r ∧ scheme r ≠ "" ∧ netloc r ≠ "")
  ∧ (∀ url e, urlparse url = inl e → validate_url url = false)
  ∧ (payload event = inr (PDict b) →
     truthy (req_website_url (request_of b)) = true →
     truthy (req_scraped_data (request_of b)) = true →
     validate_url (req_website_url (request_of b)) = false →
     lambda_handler event context w
     = (create_response (failure "Invalid website URL format") 400
          (is_gateway_event event), w)).
Proof.
  split; [|split].
  - intros url. unfold validate_url. destruct (urlparse url) as [e|r].
    + split; [done|]. by intros (r & ? & _).
    + cbn [forallb truthy]. rewrite andb_true_r, andb_true_iff, !negb_true_iff.
      rewrite !String.eqb_neq. split.
      * intros [? ?]. by exists r.
      * by intros (r' & [= <-] & ? & ?).
  - intros url e He. unfold validate_url. by rewrite He.
  - intros Hp Hu Hs Hv. rewrite (lambda_handler_payload _ _ _ _ Hp).
    by rewrite handle_body_invalid_url.
Qed.

(** C7, as amended.  On a record [validate_scraped_data] is true exactly
    when the keys [url], [title] and [content] are all present, whatever
    their values; and every request whose [websiteUrl] is truthy and passes
    [validate_url] and whose [scrapedData] is truthy and fails the check gets
    the 400 response [Invalid scraped data structure]. *)
Theorem invalid_shape_rejected (event context : pyval) (b : gmap string pyval)
    (w : world T) :
  (∀ d : gmap string pyval,
     validate_scraped_data (PDict d)
     = inr (bool_decide (is_Some (d !! "url") ∧ is_Some (d !! "title")
                         ∧ is_Some (d !! "content"))))
  ∧ (payload event = inr (PDict b) →
     truthy (req_website_url (request_of b)) = true →
     truthy (req_scraped_data (request_of b)) = true →
     validate_url (req_website_url (request_of b)) = true →
     validate_scraped_data (req_scraped_data (request_of b)) = inr false →
     lambda_handler event context w
     = (create_response (failure "Invalid scraped data structure") 400
          (is_gateway_event event), w)).
Proof.
  split.
  - intros d. unfold validate_scraped_data. cbn [py_all py_contains bind ret res_monad].
    destruct (d !! "url"), (d !! "title"), (d !! "content"); reflexivity.
  - intros Hp Hu Hs Hv Hd. rewrite (lambda_handler_payload _ _ _ _ Hp).
    by rewrite handle_body_invalid_data.
Qed.

End HandlerFacts.

(** * Identifiers and timestamps *)

#[local] Arguments String.append !_ _ / : simpl nomatch.

Lemma str_app_assoc (a b c : string) : (a +:+ b) +:+ c = a +:+ (b +:+ c).
Proof. induction a as [|x a IH]; simpl; [done|]. by rewrite IH. Qed.

Lemma str_app_length (a b : string) :
  String.length (a +:+ b) = (String.length a + String.length b)%nat.
Proof. induction a as [|x a IH]; simpl; [done|]. by rewrite IH. Qed.

Lemma string_forall_app p (a b : string) :
  string_forall p (a +:+ b) = string_forall p a && string_forall p b.
Proof.
  induction a as [|x a IH]; simpl; [done|]. by rewrite IH, andb_assoc.
Qed.

Lemma str_take_length (n : nat) (s : string) :
  (n ≤ String.length s)%nat → String.length (str_take n s) = n.
Proof.
  revert s. induction n as [|n IH]; intros [|c s]; simpl; try lia.
  intros Hn. rewrite IH; lia.
Qed.

Lemma str_take_forall p (n : nat) (s : string) :
  string_forall p s = true → string_forall p (str_take n s) = true.
Proof.
  revert s. induction n as [|n IH]; intros [|c s]; simpl; try done.
  rewrite !andb_true_iff. intros [? ?]. auto.
Qed.

Lemma substring_whole (s : string) : String.substring 0 (String.length s) s = s.
Proof. induction s as [|c s IH]; simpl; [done|]. by rewrite IH. Qed.

(** ** Hexadecimal digits *)

Lemma hex_digit_lower (n : N) : is_lower_hex (hex_digit n) = true.
Proof.
  destruct n as [|p]; [reflexivity|].
  do 4 (destruct p as [p|p|]; try reflexivity).
Qed.

Lemma hex_fixed_length (k : nat) (n : N) : String.length (hex_fixed k n) = k.
Proof.
  revert n. induction k as [|k IH]; intros n; simpl; [done|].
  rewrite str_app_length, IH. simpl. lia.
Qed.

Lemma hex_fixed_lower (k : nat) (n : N) :
  string_forall is_lower_hex (hex_fixed k n) = true.
Proof.
  revert n. induction k as [|k IH]; intros n; [done|].
  cbn [hex_fixed]. rewrite string_forall_app, IH.
  cbn [string_forall]. by rewrite hex_digit_lower.
Qed.

Lemma generate_project_id_pattern (uuid4 : N) :
  is_project_id (generate_project_id uuid4) = true.
Proof.
  unfold generate_project_id, is_project_id.
  set (h := str_take 12 (uuid_hex uuid4)).
  assert (Hlen : String.length h = 12%nat).
  { apply str_take_length. unfold uuid_hex. rewrite hex_fixed_length. lia. }
  assert (Hhex : string_forall is_lower_hex h = true).
  { apply str_take_forall, hex_fixed_lower. }
  assert (Hsub : String.substring 8 12 ("project_" +:+ h) = h).
  { cbn [String.append String.substring]. rewrite <- Hlen at 1. apply substring_whole. }
  rewrite Hsub, Hhex, str_app_length, Hlen. reflexivity.
Qed.

(** ** Decimal digits and the timestamp *)

Lemma dec_digit_code (n : N) : N_of_ascii (dec_digit n) = (48 + n mod 10)%N.
Proof.
  unfold dec_digit. apply N_ascii_embedding.
  pose proof (N.mod_upper_bound n 10 ltac:(lia)).
  generalize dependent (n mod 10)%N. intros; lia.
Qed.

Lemma dec_digit_is_digit (n : N) : is_digit (dec_digit n) = true.
Proof.
  unfold is_digit. rewrite dec_digit_code.
  pose proof (N.mod_upper_bound n 10 ltac:(lia)).
  generalize dependent (n mod 10)%N. intros r Hr.
  apply andb_true_iff. split; apply N.leb_le; lia.
Qed.

Lemma is_digit_not_z (c : ascii) : is_digit c = true → Ascii.eqb c "Z" = false.
Proof.
  intros Hc. destruct (Ascii.eqb_spec c "Z") as [->|]; [|done].
  vm_compute in Hc. discriminate Hc.
Qed.

Lemma dec_fixed_length (k : nat) (n : N) : String.length (dec_fixed k n) = k.
Proof.
  revert n. induction k as [|k IH]; intros n; simpl; [done|].
  rewrite str_app_length, IH. simpl. lia.
Qed.

Lemma dec_fixed_digits (k : nat) (n : N) :
  string_forall is_digit (dec_fixed k n) = true.
Proof.
  revert n. induction k as [|k IH]; intros n; [done|].
  cbn [dec_fixed]. rewrite string_forall_app, IH.
  cbn [string_forall]. by rewrite dec_digit_is_digit.
Qed.

(** Reading back what [dec_fixed] printed. *)
Lemma read_digits_dec_fixed (k j : nat) (acc n : N) (rest : string) :
  read_digits (k + j) acc (dec_fixed k n +:+ rest)
  = read_digits j (10 ^ N.of_nat k * acc + n mod 10 ^ N.of_nat k)%N rest.
Proof.
  revert j acc n rest. induction k as [|k IH]; intros j acc n rest.
  - cbn [dec_fixed String.append Nat.add]. f_equal.
    rewrite N.mod_1_r. simpl. lia.
  - cbn [dec_fixed]. rewrite str_app_assoc. cbn [String.append].
    replace (S k + j)%nat with (k + S j)%nat by lia.
    rewrite IH. cbn [read_digits]. rewrite dec_digit_is_digit, dec_digit_code.
    f_equal.
    rewrite Nat2N.inj_succ, N.pow_succ_r'.
    rewrite (N.Div0.mod_mul_r n 10 (10 ^ N.of_nat k)).
    generalize ((n / 10) mod 10 ^ N.of_nat k)%N (n mod 10)%N (10 ^ N.of_nat k)%N.
    intros; lia.
Qed.

Lemma read_digits_fixed (k : nat) (n : N) (rest : string) :
  (n < 10 ^ N.of_nat k)%N →
  read_digits k 0 (dec_fixed k n +:+ rest) = Some (n, rest).
Proof.
  intros Hn. rewrite <- (Nat.add_0_r k) at 1.
  rewrite read_digits_dec_fixed. cbn [read_digits].
  rewrite N.mod_small by done. do 2 f_equal. lia.
Qed.

Lemma digits_then_z_app (ds : string) :
  string_forall is_digit ds = true → digits_then_z (ds +:+ "Z") = true.
Proof.
  induction ds as [|c ds IH]; [done|].
  cbn [string_forall String.append digits_then_z].
  rewrite andb_true_iff. intros [Hc Hds].
  by rewrite (is_digit_not_z c Hc), Hc, IH.
Qed.

Lemma utc_designator_fraction (ds : string) :
  ds ≠ "" → string_forall is_digit ds = true →
  utc_designator ("." +:+ ds +:+ "Z") = true.
Proof.
  destruct ds as [|c ds]; [done|]. intros _.
  cbn [string_forall String.append utc_designator].
  rewrite andb_true_iff. intros [Hc Hds].
  change (Ascii.eqb "." "Z") with false. change (Ascii.eqb "." ".") with true.
  cbn iota. by rewrite Hc, digits_then_z_app.
Qed.

Lemma days_in_month_le (y m : N) : (days_in_month y m ≤ 31)%N.
Proof.
  unfold days_in_month.
  repeat match goal with
         | |- context [match ?x with _ => _ end] => destruct x
         end; lia.
Qed.

Lemma ends_with_app (a suffix : string) : ends_with suffix (a +:+ suffix) = true.
Proof.
  induction a as [|c a IH]; cbn [String.append].
  - destruct suffix; cbn [ends_with]; by rewrite String.eqb_refl.
  - cbn [ends_with]. by rewrite IH, orb_true_r.
Qed.

Lemma expect_head (c : ascii) (s : string) : expect c (String c s) = Some s.
Proof. unfold expect. by rewrite Ascii.eqb_refl. Qed.

(** Closes a bound [n < 10 ^ k] for a concrete [k]. *)
Ltac digits_bound :=
  match goal with
  | |- (_ < ?b)%N => let v := eval vm_compute in b in change b with v; lia
  end.

Lemma isoformat_z_valid (dt : datetime) :
  valid_datetime dt = true → iso8601_utc (isoformat dt +:+ "Z") = true.
Proof.
  unfold valid_datetime. rewrite !andb_true_iff.
  intros [[[[Hy1 Hy2] Hdate] Htime] Hus].
  apply N.leb_le in Hy1, Hy2. apply N.ltb_lt in Hus.
  pose proof Hdate as Hd. pose proof Htime as Ht.
  unfold valid_date in Hd. unfold valid_time in Ht.
  rewrite !andb_true_iff in Hd. rewrite !andb_true_iff in Ht.
  destruct Hd as [[[Hm1 Hm2] Hd1] Hd2]. destruct Ht as [[Hh Hmi] Hs].
  apply N.leb_le in Hm1, Hm2, Hd1, Hd2. apply N.ltb_lt in Hh, Hmi, Hs.
  pose proof (days_in_month_le (year dt) (month dt)).
  unfold isoformat, iso8601_utc.
  rewrite ?str_app_assoc. cbn [String.append].
  do 5 (rewrite read_digits_fixed by digits_bound; cbn [mbind option_bind];
        rewrite expect_head; cbn [mbind option_bind]).
  rewrite read_digits_fixed by digits_bound. cbn [mbind option_bind].
  rewrite Hdate, Htime. cbn [andb].
  destruct (microsecond dt =? 0)%N.
  - reflexivity.
  - cbn [String.append].
    apply (utc_designator_fraction (dec_fixed 6 (microsecond dt))).
    + intros Hz. pose proof (dec_fixed_length 6 (microsecond dt)) as Hl.
      rewrite Hz in Hl. discriminate Hl.
    + apply dec_fixed_digits.
Qed.

(** * The insert *)

#[local] Arguments String.append : simpl never.

Section CreateFacts.
Context {T : Type} `{!Table T} `{!Libraries}.
Variable uuid4 : N.
Variable utcnow : datetime.

#[local] Abbreviation create_project := (create_project uuid4 utcnow).
#[local] Abbreviation lambda_handler := (lambda_handler uuid4 utcnow).

(** What a call of [create_project] that returns has done. *)
Lemma create_project_returns
    (user_id website_url category description scraped_data project : pyval)
    (w w' : world T) :
  create_project user_id website_url category description scraped_data w
  = (inr project, w') →
  ∃ (d : gmap string pyval) (score : Z),
    scraped_data = PDict d
    ∧ calculate_health_score scraped_data = inr score
    ∧ project = project_item user_id website_url category description
                  scraped_data (default website_url (d !! "title"))
                  (generate_project_id uuid4) (isoformat utcnow +:+ "Z") score
    ∧ table_put_item (table w) project = inr (table w')
    ∧ stdout w' = stdout w.
Proof.
  unfold create_project, lift, m_put_item.
  cbn [bind ret M_monad].
  destruct (calculate_health_score scraped_data) as [e|score] eqn:Hs; [done|].
  destruct scraped_data as [| | | | | |d]; try done.
  cbn [py_get ret res_monad].
  destruct (table_put_item _ _) as [e|t'] eqn:Hp; [done|].
  intros [= <- <-]. exists d, score. unfold project_item. by rewrite Hp.
Qed.

Lemma project_item_fields
    (user_id website_url category description scraped_data title : pyval)
    (project_id current_time : string) (health_score : Z) :
  let item := project_item user_id website_url category description
                scraped_data title project_id current_time health_score in
  py_item item "title" = Some title
  ∧ py_item item "project_id" = Some (PStr project_id)
  ∧ py_item item "created_at" = Some (PStr current_time)
  ∧ py_item item "updated_at" = Some (PStr current_time)
  ∧ py_item item "last_checked" = Some (PStr current_time).
Proof. unfold project_item. cbn [py_item]. by simplify_map_eq. Qed.

(** C5, as amended.  The project a successful insert stores has, as its
    title, the value under the [title] key of the scraped data whenever that
    key is present, also when that value is empty; it has the website URL
    only when the key is absent, which is never the case for scraped data
    that passed [validate_scraped_data]. *)
Theorem stored_title
    (user_id website_url category description scraped_data project : pyval)
    (w w' : world T) :
  create_project user_id website_url category description scraped_data w
  = (inr project, w') →
  ∃ d : gmap string pyval,
    scraped_data = PDict d
    ∧ table_put_item (table w) project = inr (table w')
    ∧ py_item project "title"
      = Some (match d !! "title" with Some t => t | None => website_url end)
    ∧ (validate_scraped_data scraped_data = inr true → is_Some (d !! "title")).
Proof.
  intros (d & score & -> & _ & -> & Hput & _)%create_project_returns.
  exists d. split; [done|]. split; [done|]. split.
  - destruct (project_item_fields user_id website_url category description
                (PDict d) (default website_url (d !! "title"))
                (generate_project_id uuid4) (isoformat utcnow +:+ "Z") score)
      as (Ht & _).
    rewrite Ht. by destruct (d !! "title").
  - unfold validate_scraped_data. cbn [py_all py_contains bind ret res_monad].
    destruct (d !! "url"), (d !! "title"), (d !! "content"); simpl; by eauto.
Qed.

(** C8.  When an accepted request is no duplicate and the insert succeeds,
    the handler returns the 201 response with success true, the message
    [Project created successfully] and the project as data, and the
    project's [project_id] is [project_] followed by exactly 12 lowercase
    hexadecimal characters. *)
Theorem created_response (event context : pyval) (b : gmap string pyval)
    (project : pyval) (w w1 w2 : world T) :
  payload event = inr (PDict b) →
  accepted (request_of b) →
  check_duplicate_project (req_user_id (request_of b))
    (req_website_url (request_of b)) w = (inr false, w1) →
  create_project (req_user_id (request_of b)) (req_website_url (request_of b))
    (req_category (request_of b)) (req_description (request_of b))
    (req_scraped_data (request_of b)) w1 = (inr project, w2) →
  lambda_handler event context w
  = (create_response
       (PDict (<["success" := PBool true]>
              (<["data" := project]>
              (<["message" := PStr "Project created successfully"]> ∅))))
       201 (is_gateway_event event), w2)
  ∧ ∃ project_id,
      py_item project "project_id" = Some (PStr project_id)
      ∧ is_project_id project_id = true.
Proof.
  intros Hp Ha Hc Hcreate. split.
  - rewrite (lambda_handler_payload _ _ _ _ _ _ Hp).
    rewrite (handle_body_accepted _ _ _ _ _ Ha).
    unfold after_checks. cbn [bind M_monad]. rewrite Hc.
    cbn [bind M_monad]. rewrite Hcreate.
    reflexivity.
  - apply create_project_returns in Hcreate
      as (d & score & _ & _ & -> & _ & _).
    exists (generate_project_id uuid4). split.
    + apply project_item_fields.
    + apply generate_project_id_pattern.
Qed.

(** C9.  On the project a successful insert stores, [created_at],
    [updated_at] and [last_checked] hold one and the same string, and that
    string is an ISO-8601 timestamp in UTC that ends in [Z]. *)
Theorem created_timestamps
    (user_id website_url category description scraped_data project : pyval)
    (w w' : world T) :
  valid_datetime utcnow = true →
  create_project user_id website_url category description scraped_data w
  = (inr project, w') →
  ∃ stamp : string,
    py_item project "created_at" = Some (PStr stamp)
    ∧ py_item project "updated_at" = Some (PStr stamp)
    ∧ py_item project "last_checked" = Some (PStr stamp)
    ∧ iso8601_utc stamp = true
    ∧ ends_with "Z" stamp = true.
Proof.
  intros Hnow (d & score & _ & _ & -> & _ & _)%create_project_returns.
  exists (isoformat utcnow +:+ "Z").
  destruct (project_item_fields user_id website_url category description
              scraped_data (default website_url (d !! "title"))
              (generate_project_id uuid4) (isoformat utcnow +:+ "Z") score)
    as (_ & _ & Hc & Hu & Hl).
  repeat split; try done.
  - by apply isoformat_z_valid.
  - apply ends_with_app.
Qed.

End CreateFacts.

(** * The handler on the samples *)

#[local] Existing Instance sample_libraries.

Example create_then_duplicate :
  let first := run_direct sample_body empty_world in
  let second := run_direct sample_body (snd first) in
  py_item (fst first) "success" = Some (PBool true)
  ∧ response_data (fst first) "project_id" = Some (PStr "project_9f1c2e4a7b3d")
  ∧ response_data (fst first) "health_score" = Some (PInt 45)
  ∧ response_data (fst first) "created_at"
    = Some (PStr "2024-02-29T23:59:07.120034Z")
  ∧ length (mem_items (table (snd first))) = 1%nat
  ∧ fst second = failure "Project already exists for this URL"
  ∧ snd second = snd first.
Proof. vm_compute. repeat split. Qed.

Example gateway_responses :
  py_item (fst (run_gateway (PStr sample_text) empty_world)) "statusCode"
  = Some (PInt 201)
  ∧ py_item (fst (run_gateway (PStr sample_text) stored_world)) "statusCode"
    = Some (PInt 409)
  ∧ py_item (fst (run_gateway (PStr "{") empty_world)) "statusCode"
    = Some (PInt 400)
  ∧ py_item (fst (run_gateway PNone empty_world)) "statusCode"
    = Some (PInt 500).
Proof. vm_compute. repeat split. Qed.

Example validate_url_examples :
  validate_url (PStr "https://example.com") = true
  ∧ validate_url (PStr "example.com") = false
  ∧ validate_url (PStr "https://") = false
  ∧ validate_url (PStr "") = false
  ∧ validate_url (PInt 7) = false.
Proof. vm_compute. repeat split. Qed.

Example insert_fault_is_500 :
  fst (run_direct sample_body (World (MemTable [] false true) []))
  = internal_error
      (OtherError "An error occurred (ServiceUnavailable) when calling the PutItem operation").
Proof. vm_compute. reflexivity. Qed.

Lemma sample_accepted : accepted (request_of sample_body).
Proof. repeat split; vm_compute; reflexivity. Defined.

Lemma duplicate_is_conflict_witness :
  run_direct sample_body stored_world
  = (failure "Project already exists for this URL", stored_world).
Proof.
  apply (duplicate_is_conflict sample_uuid sample_now (PDict sample_body) PNone
           sample_body stored_world stored_world).
  - vm_compute. reflexivity.
  - exact sample_accepted.
  - vm_compute. reflexivity.
Defined.

Lemma duplicate_check_fails_open_witness :
  check_duplicate_project (PStr "u1") (PStr "https://example.com")
    unreachable_world
  = (inr false,
     World (table unreachable_world)
       ["Error checking for duplicate project: An error occurred (ServiceUnavailable) when calling the Query operation"]).
Proof.
  apply (duplicate_check_fails_open sample_uuid sample_now (PStr "u1")
           (PStr "https://example.com") unreachable_world
           (OtherError "An error occurred (ServiceUnavailable) when calling the Query operation")).
  vm_compute. reflexivity.
Defined.

Example fail_open_creates :
  py_item (fst (run_direct sample_body unreachable_world)) "success"
  = Some (PBool true)
  ∧ length (mem_items (table (snd (run_direct sample_body unreachable_world))))
    = 1%nat.
Proof. vm_compute. repeat split. Qed.

Lemma falsy_field_is_missing_witness :
  run_direct empty_url_body empty_world
  = (failure "websiteUrl is required", empty_world)
  ∧ run_direct shapeless_body empty_world
    = (failure "scrapedData is required", empty_world).
Proof.
  split.
  - apply (proj1 (falsy_field_is_missing sample_uuid sample_now
                    (PDict empty_url_body) PNone empty_url_body empty_world
                    eq_refl) (PStr "")).
    + vm_compute. reflexivity.
    + vm_compute. reflexivity.
  - apply (proj2 (falsy_field_is_missing sample_uuid sample_now
                    (PDict shapeless_body) PNone shapeless_body empty_world
                    eq_refl) (PDict ∅)).
    + vm_compute. reflexivity.
    + vm_compute. reflexivity.
Defined.

Lemma invalid_url_rejected_witness :
  run_direct bad_url_body empty_world
  = (failure "Invalid website URL format", empty_world).
Proof.
  apply (proj2 (proj2 (invalid_url_rejected sample_uuid sample_now
                         (PDict bad_url_body) PNone bad_url_body empty_world))).
  - vm_compute. reflexivity.
  - vm_compute. reflexivity.
  - vm_compute. reflexivity.
  - vm_compute. reflexivity.
Defined.

(** C6, as stated, fails: the URL of this request has no scheme and no
    host, and the response is [scrapedData is required]. *)
Lemma invalid_url_other_response :
  validate_url (PStr "example.com") = false
  ∧ fst (run_direct schemeless_body empty_world)
    = create_response (failure "scrapedData is required") 400 false
  ∧ fst (run_direct schemeless_body empty_world)
    ≠ create_response (failure "Invalid website URL format") 400 false.
Proof.
  split; [vm_compute; reflexivity|]. split; [vm_compute; reflexivity|].
  intros Heq. apply (f_equal (λ r, py_item r "error")) in Heq.
  vm_compute in Heq. discriminate Heq.
Qed.

Lemma invalid_shape_rejected_witness :
  run_direct bad_shape_body empty_world
  = (failure "Invalid scraped data structure", empty_world).
Proof.
  apply (proj2 (invalid_shape_rejected sample_uuid sample_now
                  (PDict bad_shape_body) PNone bad_shape_body empty_world)).
  - vm_compute. reflexivity.
  - vm_compute. reflexivity.
  - vm_compute. reflexivity.
  - vm_compute. reflexivity.
  - vm_compute. reflexivity.
Defined.

(** C7, as stated, fails: the empty record lacks the three keys, and the
    response is [scrapedData is required]. *)
Lemma invalid_shape_other_response :
  validate_scraped_data (PDict ∅) = inr false
  ∧ fst (run_direct shapeless_body empty_world)
    = create_response (failure "scrapedData is required") 400 false
  ∧ fst (run_direct shapeless_body empty_world)
    ≠ create_response (failure "Invalid scraped data structure") 400 false.
Proof.
  split; [vm_compute; reflexivity|]. split; [vm_compute; reflexivity|].
  intros Heq. apply (f_equal (λ r, py_item r "error")) in Heq.
  vm_compute in Heq. discriminate Heq.
Qed.

Lemma stored_title_witness :
  py_item sample_project "title" = Some (PStr "Example").
Proof.
  destruct (stored_title sample_uuid sample_now (PStr "u1")
              (PStr "https://example.com") (PStr "General") (PStr "")
              (PDict sample_scraped) sample_project empty_world
              (snd sample_insert))
    as (d & Hd & _ & Ht & _).
  - vm_compute. reflexivity.
  - injection Hd as <-. rewrite Ht. vm_compute. reflexivity.
Defined.

(** C5, as stated, fails: this create succeeds with an empty title in the
    scraped data, and the stored title is the empty string, not the URL. *)
Lemma empty_title_is_stored :
  py_item (fst (run_direct untitled_body empty_world)) "success"
  = Some (PBool true)
  ∧ response_data (fst (run_direct untitled_body empty_world)) "website_url"
    = Some (PStr "https://example.com")
  ∧ response_data (fst (run_direct untitled_body empty_world)) "title"
    = Some (PStr "")
  ∧ response_data (fst (run_direct untitled_body empty_world)) "title"
    ≠ response_data (fst (run_direct untitled_body empty_world)) "website_url"
  ∧ (λ item, py_item item "title")
      <$> mem_items (table (snd (run_direct untitled_body empty_world)))
    = [Some (PStr "")].
Proof. vm_compute. repeat split. discriminate. Qed.

Lemma created_response_witness :
  run_direct sample_body empty_world
  = (create_response (success sample_project) 201 false, snd sample_insert)
  ∧ ∃ project_id,
      py_item sample_project "project_id" = Some (PStr project_id)
      ∧ is_project_id project_id = true.
Proof.
  apply (created_response sample_uuid sample_now (PDict sample_body) PNone
           sample_body sample_project empty_world empty_world
           (snd sample_insert)).
  - vm_compute. reflexivity.
  - exact sample_accepted.
  - vm_compute. reflexivity.
  - vm_compute. reflexivity.
Defined.

Lemma created_timestamps_witness :
  ∃ stamp : string,
    py_item sample_project "created_at" = Some (PStr stamp)
    ∧ py_item sample_project "updated_at" = Some (PStr stamp)
    ∧ py_item sample_project "last_checked" = Some (PStr stamp)
    ∧ iso8601_utc stamp = true
    ∧ ends_with "Z" stamp = true.
Proof.
  apply (created_timestamps sample_uuid sample_now (PStr "u1")
           (PStr "https://example.com") (PStr "General") (PStr "")
           (PDict sample_scraped) sample_project empty_world
           (snd sample_insert)).
  - vm_compute. reflexivity.
  - vm_compute. reflexivity.
Defined.

(** * Further properties of the handler *)

Section Effects.
Context {T : Type} `{!Table T} `{!Libraries}.
Variable uuid4 : N.
Variable utcnow : datetime.

#[local] Abbreviation create_project := (create_project uuid4 utcnow).
#[local] Abbreviation handle_body := (handle_body uuid4 utcnow).
#[local] Abbreviation lambda_handler := (lambda_handler uuid4 utcnow).

Lemma world_eta (w : world T) : World (table w) (stdout w) = w.
Proof. by destruct w. Qed.

Lemma check_duplicate_project_runs (user_id website_url : pyval) (w : world T) :
  ∃ (b : bool) (lines : list string),
    check_duplicate_project user_id website_url w
    = (inr b, World (table w) (stdout w ++ lines))
    ∧ (b = true ↔
       ∃ response items n,
         table_query (table w) user_id website_url = inr response
         ∧ py_get response "Items" (PList []) = inr items
         ∧ py_len items = inr n ∧ 0 < n)
    ∧ (lines = [] ∨ b = false ∧ ∃ e, lines = [duplicate_check_line e]).
Proof.
  unfold check_duplicate_project, try_except, m_query, lift, print,
    duplicate_check_line.
  cbn [bind ret M_monad].
  destruct (table_query _ _ _) as [e|response] eqn:Hq;
    [|destruct (py_get response _ _) as [e|items] eqn:Hi;
      [|destruct (py_len items) as [e|n] eqn:Hn]].
  - exists false, ["Error checking for duplicate project: " +:+ exn_str e].
    split; [done|]. split; [|eauto].
    split; [done|]. by intros (? & ? & ? & ? & _).
  - exists false, ["Error checking for duplicate project: " +:+ exn_str e].
    split; [done|]. split; [|eauto].
    split; [done|]. intros (? & ? & ? & [= <-] & ? & _). congruence.
  - exists false, ["Error checking for duplicate project: " +:+ exn_str e].
    split; [done|]. split; [|eauto].
    split; [done|]. intros (? & ? & ? & [= <-] & ? & ? & _). congruence.
  - exists (0 <? n), []. rewrite app_nil_r, world_eta.
    split; [done|]. split; [|by left].
    rewrite Z.ltb_lt. split.
    + intros Hn0. by exists response, items, n.
    + intros (? & ? & ? & [= <-] & ? & ? & ?). congruence.
Qed.


Lemma create_project_writes_last
    (user_id website_url category description scraped_data : pyval)
    (w : world T) :
  match create_project user_id website_url category description scraped_data w
  with
  | (inr project, w') =>
      table_put_item (table w) project = inr (table w') ∧ stdout w' = stdout w
  | (inl e, w') => w' = w
  end.
Proof.
  unfold create_project, lift, m_put_item. cbn [bind ret M_monad].
  destruct (calculate_health_score scraped_data) as [e|score]; [done|].
  destruct (py_get scraped_data "title" website_url) as [e|title]; [done|].
  destruct (table_put_item _ _) as [e|t'] eqn:Hp; [done|].
  by rewrite Hp.
Qed.

(** X12.  [create_project] writes at most once, and last: when it returns, the
    table is the one [put_item] returned for the very item it returns and
    nothing was printed; when it raises, the world is as it was. *)
Theorem create_project_effect
    (user_id website_url category description scraped_data : pyval)
    (w : world T) :
  match create_project user_id website_url category description scraped_data w
  with
  | (inr project, w') =>
      table_put_item (table w) project = inr (table w') ∧ stdout w' = stdout w
  | (inl e, w') => w' = w
  end.
Proof. exact (create_project_writes_last user_id website_url category description
                 scraped_data w). Qed.

Lemma internal_error_outcome gw (w : world T) (e : exn) (lines : list string) :
  outcome gw w
    (recover gw (inl e, World (table w) (stdout w ++ lines))).
Proof.
  unfold recover. apply (outcome_internal_error gw w e lines); [done|].
  cbn [stdout]. by rewrite <- app_assoc.
Qed.

Lemma handle_body_outcome gw (body : pyval) (w : world T) :
  outcome gw w (recover gw (handle_body gw body w)).
Proof.
  assert (Hraise : ∀ e, outcome gw w (recover gw (inl e, w))).
  { intros e. rewrite <- (world_eta w) at 2. rewrite <- (app_nil_r (stdout w)).
    apply internal_error_outcome. }
  destruct body as [| | | | | |b];
    try (unfold handle_body, lift; cbn [py_get bind ret res_monad M_monad raise];
         apply Hraise).
  unfold handle_body, lift. cbn [py_get bind ret res_monad M_monad].
  destruct (truthy (default PNone (b !! "websiteUrl"))); cbn [negb];
    [|apply outcome_bad_request; set_solver].
  destruct (truthy (default PNone (b !! "scrapedData"))); cbn [negb];
    [|apply outcome_bad_request; set_solver].
  destruct (validate_url _); cbn [negb];
    [|apply outcome_bad_request; set_solver].
  destruct (validate_scraped_data _) as [e|[]]; cbn [negb];
    [apply Hraise| |apply outcome_bad_request; set_solver].
  destruct (check_duplicate_project_runs
              (default (PStr "default_user") (b !! "userId"))
              (default PNone (b !! "websiteUrl")) w)
    as (dup & lines & Hc & _ & Hl).
  rewrite Hc. destruct dup.
  - destruct Hl as [-> | [? _]]; [|done].
    rewrite app_nil_r, world_eta. apply outcome_conflict.
  - pose proof (create_project_writes_last
                  (default (PStr "default_user") (b !! "userId"))
                  (default PNone (b !! "websiteUrl"))
                  (default (PStr "General") (b !! "category"))
                  (default (PStr "") (b !! "description"))
                  (default PNone (b !! "scrapedData"))
                  (World (table w) (stdout w ++ lines))) as Heff.
    destruct (create_project _ _ _ _ _ _) as [[e|project] w2].
    + subst w2. apply internal_error_outcome.
    + destruct Heff as [Hput _]. by apply outcome_created.
Qed.

Lemma lambda_handler_outcomes (event context : pyval) (w : world T) :
  outcome (is_gateway_event event) w (lambda_handler event context w).
Proof.
  change (lambda_handler event context w)
    with (recover (is_gateway_event event)
            (handler_try uuid4 utcnow (is_gateway_event event) event w)).
  unfold handler_try. destruct (is_gateway_event event) eqn:Hgw;
    [|apply handle_body_outcome].
  destruct event as [| | | | | |ev]; try done.
  unfold lift. cbn [py_get bind ret res_monad M_monad].
  destruct (json_loads _) as [e|body]; [|apply handle_body_outcome].
  assert (Hraise : outcome true w (recover true (inl e, w))).
  { rewrite <- (world_eta w) at 2. rewrite <- (app_nil_r (stdout w)).
    apply internal_error_outcome. }
  destruct e; try exact Hraise.
  apply outcome_bad_request. set_solver.
Qed.

(** X1.  Every invocation ends in one of four ways: a 400 with one of the five
    client error strings or the 409, with the world untouched; the 201 with
    the project that a single [put_item] wrote; or the 500 with the
    exception's text, with the table untouched and the error printed
    last.  The handler itself never raises. *)
Theorem lambda_handler_outcome (event context : pyval) (w : world T) :
  outcome (is_gateway_event event) w (lambda_handler event context w).
Proof. exact (lambda_handler_outcomes event context w). Qed.

Lemma failure_fields (msg : string) :
  py_item (failure msg) "success" = Some (PBool false)
  ∧ py_item (failure msg) "error" = Some (PStr msg).
Proof. unfold failure. cbn [py_item]. by simplify_map_eq. Qed.

Lemma internal_error_fields (e : exn) :
  py_item (internal_error e) "success" = Some (PBool false)
  ∧ py_item (internal_error e) "error" = Some (PStr "Internal server error")
  ∧ py_item (internal_error e) "message" = Some (PStr (exn_str e)).
Proof. unfold internal_error. cbn [py_item]. by simplify_map_eq. Qed.

Lemma success_fields (project : pyval) :
  py_item (success project) "success" = Some (PBool true)
  ∧ py_item (success project) "data" = Some project
  ∧ py_item (success project) "message"
    = Some (PStr "Project created successfully").
Proof. unfold success. cbn [py_item]. by simplify_map_eq. Qed.

Lemma gateway_response_fields (data : pyval) (status : Z) :
  py_item (create_response data status true) "statusCode" = Some (PInt status)
  ∧ py_item (create_response data status true) "headers" = Some cors_headers
  ∧ py_item (create_response data status true) "body"
    = Some (PStr (json_dumps data)).
Proof. unfold create_response, cors_headers. cbn [py_item]. by simplify_map_eq. Qed.

(** X2.  The response to a gateway event always has the gateway framing: a
    [statusCode] that is 201, 400, 409 or 500 (never 200), the fixed CORS
    headers, and a [body] that is the [json.dumps] text of a payload. *)
Theorem gateway_response_framing (event context : pyval) (w : world T) :
  is_gateway_event event = true →
  ∃ (status : Z) (data : pyval),
    status ∈ status_codes
    ∧ py_item (fst (lambda_handler event context w)) "statusCode"
      = Some (PInt status)
    ∧ py_item (fst (lambda_handler event context w)) "headers"
      = Some cors_headers
    ∧ py_item (fst (lambda_handler event context w)) "body"
      = Some (PStr (json_dumps data)).
Proof.
  intros Hgw. pose proof (lambda_handler_outcomes event context w) as Hout.
  rewrite Hgw in Hout.
  destruct Hout as [msg _| |project w' _|e lines w' _ _]; cbn [fst];
    eexists _, _; (split; [|apply gateway_response_fields]);
    unfold status_codes; set_solver.
Qed.

(** X3.  The response to a direct invocation is the payload itself, with a
    boolean [success].  When it is false there is an [error] string and the
    table is as it was; when it is true, [data] is the project that
    [put_item] wrote to the table. *)
Theorem direct_response_payload (event context : pyval) (w : world T) :
  is_gateway_event event = false →
  ∃ ok : bool,
    py_item (fst (lambda_handler event context w)) "success" = Some (PBool ok)
    ∧ (ok = false →
       table (snd (lambda_handler event context w)) = table w
       ∧ ∃ msg, py_item (fst (lambda_handler event context w)) "error"
                = Some (PStr msg))
    ∧ (ok = true →
       ∃ project,
         py_item (fst (lambda_handler event context w)) "data" = Some project
         ∧ table_put_item (table w) project
           = inr (table (snd (lambda_handler event context w)))).
Proof.
  intros Hgw. pose proof (lambda_handler_outcomes event context w) as Hout.
  rewrite Hgw in Hout.
  destruct Hout as [msg _| |project w' Hput|e lines w' Ht _];
    cbn [fst snd create_response].
  - exists false. destruct (failure_fields msg) as [? ?].
    split; [done|]. split; [eauto|done].
  - exists false.
    destruct (failure_fields "Project already exists for this URL") as [? ?].
    split; [done|]. split; [eauto|done].
  - exists true. destruct (success_fields project) as (? & ? & ?).
    split; [done|]. split; [done|]. eauto.
  - exists false. destruct (internal_error_fields e) as (? & ? & ?).
    split; [done|]. split; [eauto|done].
Qed.

(** ** Faults before the checks *)

(** X4.  A gateway body that [json.loads] rejects with a [JSONDecodeError] gets
    the 400 response [Invalid JSON in request body] and leaves the world as
    it was; any other exception of [json.loads] (a body that is no text)
    gets the 500 response with the exception's text, which is also
    printed. *)
Theorem gateway_body_errors (ev : gmap string pyval) (raw context : pyval)
    (e : exn) (w : world T) :
  ev !! "body" = Some raw →
  json_loads raw = inl e →
  lambda_handler (PDict ev) context w
  = match e with
    | JSONDecodeError _ =>
        (create_response (failure "Invalid JSON in request body") 400 true, w)
    | _ =>
        (create_response (internal_error e) 500 true,
         World (table w) (stdout w ++ ["Error in lambda_handler: " +:+ exn_str e]))
    end.
Proof.
  intros Hb He. unfold lambda_handler, handler_try, is_gateway_event, lift.
  rewrite Hb. rewrite bool_decide_eq_true_2 by eauto.
  cbn [py_get bind ret res_monad M_monad]. rewrite Hb. cbn [default from_option id].
  rewrite He. by destruct e.
Qed.

(** X5.  A decoded payload that is no object (a list, a text, a number, null)
    gets the 500 response whose message is the [AttributeError] of the
    first [body.get]; the table is as it was. *)
Theorem non_object_payload (event context body : pyval) (w : world T) :
  payload event = inr body →
  is_dict body = false →
  lambda_handler event context w
  = (create_response
       (internal_error
          (AttributeError
             ("'" +:+ type_name body +:+ "' object has no attribute 'get'")))
       500 (is_gateway_event event),
     World (table w)
       (stdout w ++ ["Error in lambda_handler: '" +:+ type_name body
                       +:+ "' object has no attribute 'get'"])).
Proof.
  intros Hp Hb. rewrite (lambda_handler_payload _ _ _ _ _ _ Hp).
  destruct body; try done; reflexivity.
Qed.

(** ** Faults after the checks *)

Lemma accepted_run (event context : pyval) (b : gmap string pyval)
    (w w1 : world T) :
  payload event = inr (PDict b) →
  accepted (request_of b) →
  check_duplicate_project (req_user_id (request_of b))
    (req_website_url (request_of b)) w = (inr false, w1) →
  table w1 = table w
  ∧ lambda_handler event context w
    = recover (is_gateway_event event)
        ((project <- create_project (req_user_id (request_of b))
                       (req_website_url (request_of b))
                       (req_category (request_of b))
                       (req_description (request_of b))
                       (req_scraped_data (request_of b)) ;;
          ret (create_response (success project) 201 (is_gateway_event event)))
           w1).
Proof.
  intros Hp Ha Hc. split.
  - destruct (check_duplicate_returns (req_user_id (request_of b))
                (req_website_url (request_of b)) w)
      as (b' & w' & Hc' & Ht & _).
    rewrite Hc in Hc'. by injection Hc' as _ <-.
  - rewrite (lambda_handler_payload _ _ _ _ _ _ Hp).
    rewrite (handle_body_accepted _ _ _ _ _ Ha).
    unfold after_checks. cbn [bind M_monad]. by rewrite Hc.
Qed.


(** X7.  The shape check lets values through that are no records (a list or a
    text that contains the three field names): such a request, when it is no
    duplicate, gets the 500 response of the [AttributeError] that the
    scoring raises, and nothing is stored. *)
Theorem non_record_scraped_data (event context : pyval)
    (b : gmap string pyval) (w w1 : world T) :
  payload event = inr (PDict b) →
  accepted (request_of b) →
  is_dict (req_scraped_data (request_of b)) = false →
  check_duplicate_project (req_user_id (request_of b))
    (req_website_url (request_of b)) w = (inr false, w1) →
  lambda_handler event context w
  = (create_response
       (internal_error
          (AttributeError
             ("'" +:+ type_name (req_scraped_data (request_of b))
                +:+ "' object has no attribute 'get'")))
       500 (is_gateway_event event),
     World (table w)
       (stdout w1 ++ ["Error in lambda_handler: '"
                        +:+ type_name (req_scraped_data (request_of b))
                        +:+ "' object has no attribute 'get'"])).
Proof.
  intros Hp Ha Hd Hc.
  destruct (accepted_run event context b w w1 Hp Ha Hc) as [Ht ->].
  unfold create_project, lift. cbn [bind ret M_monad].
  destruct (req_scraped_data (request_of b)); try done;
    unfold recover, internal_error; cbn; by rewrite Ht.
Qed.

(** X6.  Scraped data that is a non-zero number or [true] passes the presence
    check and makes the shape check itself raise: the response is the 500
    of a [TypeError], whatever the table holds. *)
Theorem numeric_scraped_data (event context : pyval) (b : gmap string pyval)
    (w : world T) :
  payload event = inr (PDict b) →
  truthy (req_website_url (request_of b)) = true →
  validate_url (req_website_url (request_of b)) = true →
  truthy (req_scraped_data (request_of b)) = true →
  is_number (req_scraped_data (request_of b)) = true →
  lambda_handler event context w
  = (create_response
       (internal_error
          (TypeError
             ("argument of type '" +:+ type_name (req_scraped_data (request_of b))
                +:+ "' is not iterable")))
       500 (is_gateway_event event),
     World (table w)
       (stdout w ++ ["Error in lambda_handler: argument of type '"
                       +:+ type_name (req_scraped_data (request_of b))
                       +:+ "' is not iterable"])).
Proof.
  intros Hp Hu Hv Hs Hn. rewrite (lambda_handler_payload _ _ _ _ _ _ Hp).
  unfold handle_body, lift. cbn [py_get bind ret res_monad M_monad].
  cbn [req_website_url req_scraped_data request_of] in *.
  rewrite Hu, Hv, Hs. cbn [negb].
  destruct (default PNone (b !! "scrapedData")); try done; reflexivity.
Qed.

(** ** What a successful create stores *)

Lemma project_item_request_fields
    (user_id website_url category description scraped_data title : pyval)
    (project_id current_time : string) (health_score : Z) :
  let item := project_item user_id website_url category description
                scraped_data title project_id current_time health_score in
  py_item item "user_id" = Some user_id
  ∧ py_item item "website_url" = Some website_url
  ∧ py_item item "category" = Some category
  ∧ py_item item "description" = Some description
  ∧ py_item item "scraped_data" = Some scraped_data
  ∧ py_item item "status" = Some (PStr "active")
  ∧ py_item item "health_score" = Some (PInt health_score).
Proof. unfold project_item. cbn [py_item]. by simplify_map_eq. Qed.

Lemma project_item_keys
    (user_id website_url category description scraped_data title : pyval)
    (project_id current_time : string) (health_score : Z) :
  ∃ item : gmap string pyval,
    project_item user_id website_url category description scraped_data title
      project_id current_time health_score = PDict item
    ∧ dom item = project_keys.
Proof.
  eexists. split; [reflexivity|].
  rewrite !dom_insert_L, dom_empty_L. unfold project_keys. cbn [list_to_set].
  reflexivity.
Qed.

Lemma truthy_default_present (b : gmap string pyval) (key : string) :
  truthy (default PNone (b !! key)) = true →
  ∃ v, b !! key = Some v ∧ default PNone (b !! key) = v.
Proof. destruct (b !! key) as [v|]; [eauto|done]. Qed.

(** X9.  The project of a successful create carries the request as it came: the
    [websiteUrl] and the [scrapedData] of the payload unchanged, its
    [userId], [category] and [description] or their defaults
    [default_user], [General] and the empty string; the status [active];
    and as [health_score] the score of that scraped data, between 0 and
    100.  It has exactly the twelve keys of a project, and it is the item
    that [put_item] received. *)
Theorem created_project_fields (event context : pyval) (b : gmap string pyval)
    (project : pyval) (w w1 w2 : world T) :
  payload event = inr (PDict b) →
  accepted (request_of b) →
  check_duplicate_project (req_user_id (request_of b))
    (req_website_url (request_of b)) w = (inr false, w1) →
  create_project (req_user_id (request_of b)) (req_website_url (request_of b))
    (req_category (request_of b)) (req_description (request_of b))
    (req_scraped_data (request_of b)) w1 = (inr project, w2) →
  ∃ (url : pyval) (d item : gmap string pyval) (score : Z),
    b !! "websiteUrl" = Some url
    ∧ b !! "scrapedData" = Some (PDict d)
    ∧ project = PDict item
    ∧ dom item = project_keys
    ∧ item !! "website_url" = Some url
    ∧ item !! "scraped_data" = Some (PDict d)
    ∧ item !! "user_id" = Some (default (PStr "default_user") (b !! "userId"))
    ∧ item !! "category" = Some (default (PStr "General") (b !! "category"))
    ∧ item !! "description" = Some (default (PStr "") (b !! "description"))
    ∧ item !! "status" = Some (PStr "active")
    ∧ item !! "health_score" = Some (PInt score)
    ∧ calculate_health_score (PDict d) = inr score
    ∧ 0 ≤ score ≤ 100
    ∧ table_put_item (table w) project = inr (table w2).
Proof.
  intros Hp Ha Hc Hcreate.
  destruct (accepted_run event context b w w1 Hp Ha Hc) as [Ht _].
  destruct Ha as (Hu & Hs & _ & _).
  cbn [req_website_url req_scraped_data req_user_id req_category
       req_description request_of] in *.
  destruct (truthy_default_present b "websiteUrl" Hu) as (url & Hurl & Eurl).
  destruct (truthy_default_present b "scrapedData" Hs) as (sd & Hsd & Esd).
  rewrite Eurl, Esd in Hcreate.
  apply create_project_returns in Hcreate
    as (d & score & -> & Hscore & -> & Hput & _).
  destruct (project_item_keys
              (default (PStr "default_user") (b !! "userId")) url
              (default (PStr "General") (b !! "category"))
              (default (PStr "") (b !! "description")) (PDict d)
              (default url (d !! "title")) (generate_project_id uuid4)
              (isoformat utcnow +:+ "Z") score) as (item & Hitem & Hdom).
  destruct (project_item_request_fields
              (default (PStr "default_user") (b !! "userId")) url
              (default (PStr "General") (b !! "category"))
              (default (PStr "") (b !! "description")) (PDict d)
              (default url (d !! "title")) (generate_project_id uuid4)
              (isoformat utcnow +:+ "Z") score)
    as (F1 & F2 & F3 & F4 & F5 & F6 & F7).
  cbv zeta in *. rewrite Hitem in *. cbn [py_item] in *.
  exists url, d, item, score.
  pose proof (score_defined d score Hscore) as Hd.
  pose proof (factor_sum_bounds d) as Hb.
  rewrite (score_scorable d Hd) in Hscore.
  assert (0 ≤ score ≤ 100) by (injection Hscore as <-; unfold spec_score; lia).
  rewrite <- Ht. rewrite (score_scorable d Hd). by rewrite Hscore.
Qed.

(** ** A second create *)

(** X10.  On a table that shows a written item to the next query for its user
    and URL, a request that has just been created is a duplicate: the same
    payload sent again gets the 409 response and changes nothing. *)
Theorem second_create_conflicts (event context context' : pyval)
    (b : gmap string pyval) (project : pyval) (w w1 w2 : world T) :
  payload event = inr (PDict b) →
  accepted (request_of b) →
  check_duplicate_project (req_user_id (request_of b))
    (req_website_url (request_of b)) w = (inr false, w1) →
  create_project (req_user_id (request_of b)) (req_website_url (request_of b))
    (req_category (request_of b)) (req_description (request_of b))
    (req_scraped_data (request_of b)) w1 = (inr project, w2) →
  (∀ item,
     table_put_item (table w) item = inr (table w2) →
     py_item item "user_id" = Some (req_user_id (request_of b)) →
     py_item item "website_url" = Some (req_website_url (request_of b)) →
     ∃ response items,
       table_query (table w2) (req_user_id (request_of b))
         (req_website_url (request_of b)) = inr response
       ∧ py_get response "Items" (PList []) = inr (PList items)
       ∧ items ≠ []) →
  lambda_handler event context' w2
  = (create_response (failure "Project already exists for this URL") 409
       (is_gateway_event event), w2).
Proof.
  intros Hp Ha Hc Hcreate Hlaw.
  destruct (accepted_run event context b w w1 Hp Ha Hc) as [Ht _].
  apply create_project_returns in Hcreate
    as (d & score & _ & _ & -> & Hput & _).
  rewrite Ht in Hput.
  destruct (project_item_request_fields
              (req_user_id (request_of b)) (req_website_url (request_of b))
              (req_category (request_of b)) (req_description (request_of b))
              (req_scraped_data (request_of b))
              (default (req_website_url (request_of b)) (d !! "title"))
              (generate_project_id uuid4) (isoformat utcnow +:+ "Z") score)
    as (F1 & F2 & _).
  destruct (Hlaw _ Hput F1 F2) as (response & items & Hq & Hi & Hne).
  rewrite (lambda_handler_payload _ _ _ _ _ _ Hp).
  rewrite (handle_body_accepted _ _ _ _ _ Ha).
  unfold after_checks, check_duplicate_project, try_except, m_query, lift.
  cbn [bind ret M_monad]. rewrite Hq, Hi. cbn [py_len ret res_monad].
  destruct items as [|item items]; [done|]. reflexivity.
Qed.

End Effects.

(** * Further properties of the scorer *)

(** X13.  [calculate_health_score] returns a score exactly for a record whose
    [content_length] and [links_count], when present, are numbers and whose
    [framework_detection], when present, is a record; on every other value
    it raises. *)
Theorem health_score_defined_iff (scraped_data : pyval) :
  (∃ s, calculate_health_score scraped_data = inr s)
  ↔ ∃ d, scraped_data = PDict d ∧ scorable d = true.
Proof.
  split.
  - intros [s Hs]. destruct scraped_data as [| | | | | |d]; try done.
    exists d. split; [done|]. by eapply score_defined.
  - intros (d & -> & Hd). exists (spec_score d). by apply score_scorable.
Qed.

(** X14.  The scorer reads the seven recognised keys only: adding, changing or
    removing any other key changes neither the score nor the exception. *)
Theorem health_score_ignores_other_keys (d : gmap string pyval) (key : string)
    (v : pyval) :
  key ∉ factor_key <$> factors →
  calculate_health_score (PDict (<[key := v]> d))
  = calculate_health_score (PDict d)
  ∧ calculate_health_score (PDict (delete key d))
    = calculate_health_score (PDict d).
Proof.
  unfold factors. cbn [fmap list_fmap factor_key].
  rewrite !not_elem_of_cons. intros (? & ? & ? & ? & ? & ? & ? & _).
  rewrite !score_unfold. cbv zeta.
  by rewrite !lookup_insert_ne, !lookup_delete_ne by done.
Qed.

(** X15.  The sum of the contributions never exceeds 100, so the final
    [min(score, 100)] never changes it: the score is the plain sum. *)
Theorem health_score_is_plain_sum (d : gmap string pyval) :
  scorable d = true →
  calculate_health_score (PDict d) = inr (factor_sum d).
Proof.
  intros Hd. rewrite (score_scorable d Hd). unfold spec_score.
  pose proof (factor_sum_bounds d). f_equal. lia.
Qed.

(** X16.  The score is 100 exactly when every one of the seven factors earns its
    top points. *)
Theorem health_score_full_marks (d : gmap string pyval) :
  calculate_health_score (PDict d) = inr 100
  ↔ scorable d = true
    ∧ ∀ f, points f (d !! factor_key f) = top_points f.
Proof.
  split.
  - intros Hs. pose proof (score_defined d 100 Hs) as Hd. split; [done|].
    rewrite (score_scorable d Hd) in Hs. injection Hs as Hs.
    unfold spec_score, factor_sum, factors in Hs. cbn [foldr] in Hs.
    pose proof (points_max StatusCode (d !! factor_key StatusCode)).
    pose proof (points_max ContentLength (d !! factor_key ContentLength)).
    pose proof (points_max Title (d !! factor_key Title)).
    pose proof (points_max Description (d !! factor_key Description)).
    pose proof (points_max LinksCount (d !! factor_key LinksCount)).
    pose proof (points_max HasSsl (d !! factor_key HasSsl)).
    pose proof (points_max FrameworkDetection (d !! factor_key FrameworkDetection)).
    simpl in *. intros []; simpl; lia.
  - intros [Hd Htop]. rewrite (score_scorable d Hd).
    unfold spec_score, factor_sum, factors. cbn [foldr].
    rewrite !Htop. reflexivity.
Qed.

(** * Further properties of identifiers, timestamps and the shape check *)

#[local] Arguments String.append !_ _ / : simpl nomatch.

Lemma parse_isoformat (dt : datetime) :
  valid_datetime dt = true → parse_timestamp (isoformat dt +:+ "Z") = Some dt.
Proof.
  unfold valid_datetime. rewrite !andb_true_iff.
  intros [[[[Hy1 Hy2] Hdate] Htime] Hus].
  apply N.leb_le in Hy1, Hy2. apply N.ltb_lt in Hus.
  unfold valid_date in Hdate. unfold valid_time in Htime.
  rewrite !andb_true_iff in Hdate. rewrite !andb_true_iff in Htime.
  destruct Hdate as [[[Hm1 Hm2] Hd1] Hd2]. destruct Htime as [[Hh Hmi] Hs].
  apply N.leb_le in Hm1, Hm2, Hd1, Hd2. apply N.ltb_lt in Hh, Hmi, Hs.
  pose proof (days_in_month_le (year dt) (month dt)).
  unfold isoformat, parse_timestamp.
  rewrite ?str_app_assoc. cbn [String.append].
  do 5 (rewrite read_digits_fixed by digits_bound; cbn [mbind option_bind];
        rewrite expect_head; cbn [mbind option_bind]).
  rewrite read_digits_fixed by digits_bound. cbn [mbind option_bind].
  destruct dt as [y m d h mi s us]. cbn [microsecond] in *.
  destruct (N.eqb_spec us 0) as [->|Hne].
  - reflexivity.
  - cbn [String.append read_fraction].
    change (Ascii.eqb "." "Z") with false. change (Ascii.eqb "." ".") with true.
    cbn iota. rewrite read_digits_fixed by digits_bound.
    reflexivity.
Qed.

(** X19.  The timestamp of a project determines the instant of its creation to
    the microsecond: two instants with the same timestamp are the same. *)
Theorem timestamp_determines_instant (dt dt' : datetime) :
  valid_datetime dt = true →
  valid_datetime dt' = true →
  isoformat dt +:+ "Z" = isoformat dt' +:+ "Z" →
  dt = dt'.
Proof.
  intros Hdt Hdt' Heq.
  apply (f_equal parse_timestamp) in Heq.
  rewrite !parse_isoformat in Heq by done. by injection Heq.
Qed.

(** ** Project ids *)

Lemma hex_value_digit (n : N) : (n < 16)%N → hex_value (hex_digit n) = n.
Proof.
  intros Hn. destruct n as [|p]; [reflexivity|].
  do 4 (destruct p as [p|p|]; try reflexivity); lia.
Qed.

Lemma str_snoc_inj (a b : string) (x y : ascii) :
  a +:+ String x "" = b +:+ String y "" → a = b ∧ x = y.
Proof.
  revert b. induction a as [|c a IH]; intros [|c' b]; cbn [String.append].
  - by intros [= ->].
  - intros [= _ Hb]. by destruct b.
  - intros [= _ Ha]. by destruct a.
  - intros [= -> Hab]. destruct (IH b Hab) as [-> ->]. done.
Qed.

Lemma str_take_app (k : nat) (a b : string) :
  (k ≤ String.length a)%nat → str_take k (a +:+ b) = str_take k a.
Proof.
  revert a. induction k as [|k IH]; intros [|c a]; cbn [String.append];
    simpl; try lia; try done.
  intros Hk. rewrite IH; [done|lia].
Qed.

Lemma str_take_whole (s : string) : str_take (String.length s) s = s.
Proof. induction s as [|c s IH]; simpl; [done|]. by rewrite IH. Qed.

(** The first [k] of [k + j] digits are the digits of the number without
    its last [j] digits. *)
Lemma str_take_hex_fixed (k j : nat) (u : N) :
  str_take k (hex_fixed (k + j) u) = hex_fixed k (u / 16 ^ N.of_nat j)%N.
Proof.
  revert u. induction j as [|j IH]; intros u.
  - rewrite Nat.add_0_r. change (16 ^ N.of_nat 0)%N with 1%N.
    rewrite N.div_1_r. rewrite <- (hex_fixed_length k u) at 1.
    apply str_take_whole.
  - replace (k + S j)%nat with (S (k + j)) by lia. cbn [hex_fixed].
    rewrite str_take_app by (rewrite hex_fixed_length; lia).
    rewrite IH, Nat2N.inj_succ, N.pow_succ_r', N.Div0.div_div. done.
Qed.

Lemma hex_fixed_inj (k : nat) (n n' : N) :
  hex_fixed k n = hex_fixed k n'
  ↔ (n mod 16 ^ N.of_nat k = n' mod 16 ^ N.of_nat k)%N.
Proof.
  revert n n'. induction k as [|k IH]; intros n n'.
  - change (16 ^ N.of_nat 0)%N with 1%N. by rewrite !N.mod_1_r.
  - cbn [hex_fixed]. rewrite Nat2N.inj_succ, N.pow_succ_r'.
    rewrite (N.Div0.mod_mul_r n 16), (N.Div0.mod_mul_r n' 16).
    pose proof (N.mod_upper_bound n 16 ltac:(lia)) as Hn.
    pose proof (N.mod_upper_bound n' 16 ltac:(lia)) as Hn'.
    split.
    + intros [Hpre Hlast]%str_snoc_inj. apply IH in Hpre.
      apply (f_equal hex_value) in Hlast.
      rewrite !hex_value_digit in Hlast by done. by rewrite Hpre, Hlast.
    + intros Heq.
      assert ((n mod 16 = n' mod 16)%N
              ∧ ((n / 16) mod 16 ^ N.of_nat k
                 = (n' / 16) mod 16 ^ N.of_nat k)%N) as [Hlast Hpre].
      { revert Heq Hn Hn'.
        generalize (n mod 16)%N (n' mod 16)%N
          ((n / 16) mod 16 ^ N.of_nat k)%N ((n' / 16) mod 16 ^ N.of_nat k)%N.
        intros; lia. }
      apply IH in Hpre. by rewrite Hpre, Hlast.
Qed.

(** X18.  Two UUIDs give the same project id exactly when the twelve leading
    hexadecimal digits of their 32 agree: the id keeps 48 of the 128 bits,
    and a UUID that differs only in the other 80 collides. *)
Theorem project_id_collision (u u' : N) :
  generate_project_id u = generate_project_id u'
  ↔ ((u / 16 ^ 20) mod 16 ^ 12 = (u' / 16 ^ 20) mod 16 ^ 12)%N.
Proof.
  unfold generate_project_id, uuid_hex.
  rewrite !(str_take_hex_fixed 12 20).
  change (N.of_nat 20) with 20%N.
  rewrite <- (hex_fixed_inj 12). change (N.of_nat 12) with 12%N.
  split; [|by intros ->].
  apply (inj (String.append "project_")).
Qed.

Example project_id_collision_ex :
  generate_project_id 0x9f1c2e4a7b3d00000000000000000000
  = generate_project_id 0x9f1c2e4a7b3dffffffffffffffffffff.
Proof. vm_compute. reflexivity. Qed.

(** ** The shape check on values that are no records *)

Lemma prefix_spec (a b : string) :
  String.prefix a b = true ↔ ∃ c, b = a +:+ c.
Proof.
  revert b. induction a as [|x a IH]; intros [|y b];
    cbn [String.prefix String.append].
  - split; [by exists ""|done].
  - split; [by exists (String y b)|done].
  - split; [done|]. by intros [c ?].
  - destruct (ascii_dec x y) as [->|Hne].
    + rewrite IH. split; intros [c Hc]; exists c; congruence.
    + split; [done|]. intros [c Hc]. congruence.
Qed.

Lemma str_contains_spec (t s : string) :
  str_contains t s = true ↔ substring_of t s.
Proof.
  unfold substring_of. induction s as [|c s IH]; cbn [str_contains].
  - rewrite orb_false_r, prefix_spec. split.
    + intros [after ->]. by exists "", after.
    + intros (before & after & Hs). destruct before; [eauto|done].
  - rewrite orb_true_iff, prefix_spec, IH. split.
    + intros [[after ->] | (before & after & ->)].
      * by exists "", after.
      * by exists (String c before), after.
    + intros ([|c' before] & after & Hs).
      * left. by exists after.
      * right. injection Hs as -> ->. by exists before, after.
Qed.

Lemma existsb_py_eq_str (l : list pyval) (field : string) :
  existsb (λ x, py_eq_str x field) l = true ↔ PStr field ∈ l.
Proof.
  rewrite existsb_exists. setoid_rewrite <- list_elem_of_In. split.
  - intros (x & Hx & Heq). destruct x; try done.
    apply String.eqb_eq in Heq. by subst.
  - intros Hin. exists (PStr field). split; [done|]. apply String.eqb_refl.
Qed.

(** X17.  [validate_scraped_data] does not ask for a record: it accepts a list
    that has the three field names among its elements and a text that has
    them as substrings, and on a number, a boolean or [null] it raises a
    [TypeError]. *)
Theorem shape_check_on_non_records :
  (∀ l : list pyval,
     validate_scraped_data (PList l) = inr true
     ↔ PStr "url" ∈ l ∧ PStr "title" ∈ l ∧ PStr "content" ∈ l)
  ∧ (∀ s : string,
       validate_scraped_data (PStr s) = inr true
       ↔ substring_of "url" s ∧ substring_of "title" s
         ∧ substring_of "content" s)
  ∧ (∀ v : pyval,
       v = PNone ∨ is_number v = true →
       validate_scraped_data v
       = inl (TypeError
                ("argument of type '" +:+ type_name v +:+ "' is not iterable"))).
Proof.
  split; [|split].
  - intros l. rewrite <- !existsb_py_eq_str.
    unfold validate_scraped_data. cbn [py_all py_contains bind ret res_monad].
    destruct (existsb _ l), (existsb _ l), (existsb _ l);
      intuition congruence.
  - intros s. rewrite <- !str_contains_spec.
    unfold validate_scraped_data. cbn [py_all py_contains bind ret res_monad].
    destruct (str_contains "url" s), (str_contains "title" s),
      (str_contains "content" s); intuition congruence.
  - intros v [-> | Hv]; [reflexivity|]. by destruct v.
Qed.

#[local] Arguments String.append : simpl never.

(** * The further properties on the samples *)

Lemma gateway_response_framing_witness :
  ∃ (status : Z) (data : pyval),
    status ∈ status_codes
    ∧ py_item (fst (run_gateway (PStr sample_text) empty_world)) "statusCode"
      = Some (PInt status)
    ∧ py_item (fst (run_gateway (PStr sample_text) empty_world)) "headers"
      = Some cors_headers
    ∧ py_item (fst (run_gateway (PStr sample_text) empty_world)) "body"
      = Some (PStr (json_dumps data)).
Proof.
  apply (gateway_response_framing sample_uuid sample_now
           (PDict {["body" := PStr sample_text]}) PNone empty_world).
  vm_compute. reflexivity.
Defined.

Lemma direct_response_payload_witness :
  ∃ ok : bool,
    py_item (fst (run_direct sample_body empty_world)) "success"
    = Some (PBool ok)
    ∧ (ok = false →
       table (snd (run_direct sample_body empty_world)) = table empty_world
       ∧ ∃ msg, py_item (fst (run_direct sample_body empty_world)) "error"
                = Some (PStr msg))
    ∧ (ok = true →
       ∃ project,
         py_item (fst (run_direct sample_body empty_world)) "data"
         = Some project
         ∧ table_put_item (table empty_world) project
           = inr (table (snd (run_direct sample_body empty_world)))).
Proof.
  apply (direct_response_payload sample_uuid sample_now (PDict sample_body)
           PNone empty_world).
  vm_compute. reflexivity.
Defined.

Lemma gateway_body_errors_witness :
  run_gateway (PStr "{") empty_world
  = (create_response (failure "Invalid JSON in request body") 400 true,
     empty_world).
Proof.
  apply (gateway_body_errors sample_uuid sample_now {["body" := PStr "{"]}
           (PStr "{") PNone
           (JSONDecodeError "Expecting value: line 1 column 1 (char 0)")
           empty_world).
  - vm_compute. reflexivity.
  - vm_compute. reflexivity.
Defined.

Lemma non_object_payload_witness :
  run_event (PList []) empty_world
  = (internal_error (AttributeError "'list' object has no attribute 'get'"),
     World (table empty_world)
       ["Error in lambda_handler: 'list' object has no attribute 'get'"]).
Proof.
  apply (non_object_payload sample_uuid sample_now (PList []) PNone (PList [])
           empty_world).
  - vm_compute. reflexivity.
  - vm_compute. reflexivity.
Defined.


Lemma list_accepted : accepted (request_of list_body).
Proof. repeat split; vm_compute; reflexivity. Defined.

Lemma non_record_scraped_data_witness :
  run_direct list_body empty_world
  = (internal_error (AttributeError "'list' object has no attribute 'get'"),
     World (table empty_world)
       ["Error in lambda_handler: 'list' object has no attribute 'get'"]).
Proof.
  apply (non_record_scraped_data sample_uuid sample_now (PDict list_body) PNone
           list_body empty_world empty_world).
  - vm_compute. reflexivity.
  - exact list_accepted.
  - vm_compute. reflexivity.
  - vm_compute. reflexivity.
Defined.

Lemma numeric_scraped_data_witness :
  run_direct number_body stored_world
  = (internal_error (TypeError "argument of type 'int' is not iterable"),
     World (table stored_world)
       ["Error in lambda_handler: argument of type 'int' is not iterable"]).
Proof.
  apply (numeric_scraped_data sample_uuid sample_now (PDict number_body) PNone
           number_body stored_world).
  - vm_compute. reflexivity.
  - vm_compute. reflexivity.
  - vm_compute. reflexivity.
  - vm_compute. reflexivity.
  - vm_compute. reflexivity.
Defined.

Lemma created_project_fields_witness :
  ∃ (url : pyval) (d item : gmap string pyval) (score : Z),
    sample_body !! "websiteUrl" = Some url
    ∧ sample_body !! "scrapedData" = Some (PDict d)
    ∧ sample_project = PDict item
    ∧ dom item = project_keys
    ∧ item !! "website_url" = Some url
    ∧ item !! "scraped_data" = Some (PDict d)
    ∧ item !! "user_id"
      = Some (default (PStr "default_user") (sample_body !! "userId"))
    ∧ item !! "category"
      = Some (default (PStr "General") (sample_body !! "category"))
    ∧ item !! "description"
      = Some (default (PStr "") (sample_body !! "description"))
    ∧ item !! "status" = Some (PStr "active")
    ∧ item !! "health_score" = Some (PInt score)
    ∧ calculate_health_score (PDict d) = inr score
    ∧ 0 ≤ score ≤ 100
    ∧ table_put_item (table empty_world) sample_project
      = inr (table (snd sample_insert)).
Proof.
  apply (created_project_fields sample_uuid sample_now (PDict sample_body)
           PNone sample_body sample_project empty_world empty_world
           (snd sample_insert)).
  - vm_compute. reflexivity.
  - exact sample_accepted.
  - vm_compute. reflexivity.
  - vm_compute. reflexivity.
Defined.

Lemma second_create_conflicts_witness :
  run_direct sample_body (snd sample_insert)
  = (failure "Project already exists for this URL", snd sample_insert).
Proof.
  apply (second_create_conflicts sample_uuid sample_now (PDict sample_body)
           PNone PNone sample_body sample_project empty_world empty_world
           (snd sample_insert)).
  - vm_compute. reflexivity.
  - exact sample_accepted.
  - vm_compute. reflexivity.
  - vm_compute. reflexivity.
  - intros item Hput _ _. vm_compute in Hput.
    assert (item = sample_project) as -> by (vm_compute; congruence).
    eexists _, _. split; [vm_compute; reflexivity|].
    split; [vm_compute; reflexivity|]. discriminate.
Defined.

Lemma health_score_ignores_other_keys_witness :
  calculate_health_score (PDict (<["url" := PStr "x"]> partial_record))
  = calculate_health_score (PDict partial_record)
  ∧ calculate_health_score (PDict (delete "url" partial_record))
    = calculate_health_score (PDict partial_record).
Proof.
  apply (health_score_ignores_other_keys partial_record "url" (PStr "x")).
  unfold factors. cbn [fmap list_fmap factor_key].
  rewrite !not_elem_of_cons. repeat split; try discriminate.
  apply not_elem_of_nil.
Defined.

Lemma health_score_is_plain_sum_witness :
  calculate_health_score (PDict partial_record)
  = inr (factor_sum partial_record).
Proof.
  apply (health_score_is_plain_sum partial_record). vm_compute. reflexivity.
Defined.

Lemma timestamp_determines_instant_witness :
  sample_now
  = {| year := 2024; month := 2; day := 29; hour := 23; minute := 59;
       second := 7; microsecond := 120034 |}.
Proof.
  apply (timestamp_determines_instant sample_now
           {| year := 2024; month := 2; day := 29; hour := 23; minute := 59;
              second := 7; microsecond := 120034 |}).
  - vm_compute. reflexivity.
  - vm_compute. reflexivity.
  - vm_compute. reflexivity.
Defined.
